(** * Setup-plan rule engine of the GitHub repository guide (src/app.py)

    A shallow embedding of the pure core of [app.py]: the technology
    classifier [detect_technologies], the per-technology step generators,
    the run-command resolver [generate_run_steps] and the synthesizer
    [generate_setup_steps], followed by the properties established for them.

    Modelling conventions.
    - A Python [str] is a [string]; file names are taken to be ASCII, so
      [str.lower] is the ASCII case mapping.
    - An entry of the contents listing (a JSON object with the keys
      ['name'] and ['type']) is the record [item].
    - A step (a dict with four fixed keys) is the record [step].
    - The classifier accumulates its tags in a Python [set], modelled as a
      [gset string]; [list(s)] enumerates a set in an order the language
      leaves open, modelled as the relation [list_of_set]. *)

From Stdlib Require Import String Ascii List Bool.
From stdpp Require Import base gmap strings list sets.

Open Scope string_scope.

(** ** Python string primitives *)

Module Py.

(** [c.lower()] for one ASCII character. *)
Definition lower_ascii (c : ascii) : ascii :=
  let n := nat_of_ascii c in
  if (65 <=? n)%nat && (n <=? 90)%nat then ascii_of_nat (n + 32) else c.

(** [s.lower()]. *)
Fixpoint lower (s : string) : string :=
  match s with
  | EmptyString => EmptyString
  | String c s' => String (lower_ascii c) (lower s')
  end.

(** [s.startswith(p)]. *)
Fixpoint startswith (p s : string) : bool :=
  match p, s with
  | EmptyString, _ => true
  | String _ _, EmptyString => false
  | String a p', String b s' => if Ascii.eqb a b then startswith p' s' else false
  end.

(** [p in s] for two strings: [p] occurs in [s] as a contiguous run. *)
Fixpoint contains (p s : string) : bool :=
  startswith p s ||
  match s with
  | EmptyString => false
  | String _ s' => contains p s'
  end.

(** [sep.join(l)]. *)
Fixpoint join (sep : string) (l : list string) : string :=
  match l with
  | [] => EmptyString
  | [x] => x
  | x :: l' => x +:+ sep +:+ join sep l'
  end.

(** [x in l] for a list of strings. *)
Definition mem (x : string) (l : list string) : bool :=
  bool_decide (x ∈ l).

(** Truth value of a string: the empty string is false. *)
Definition truthy (s : string) : bool :=
  match s with EmptyString => false | _ => true end.

(** [list(s)] for a set [s]: some enumeration of the elements, each
    once; the iteration order of a set is not fixed by the language. *)
Definition list_of_set (s : gset string) (l : list string) : Prop :=
  l ≡ₚ elements s.

(** [s.replace(old, new)] for a non-empty [old]: the occurrences of
    [old] are replaced from left to right, without overlap. [skip] counts
    the characters of the occurrence just found that are still to be
    passed over. *)
Fixpoint replace_from (old new : string) (skip : nat) (s : string) : string :=
  match s with
  | EmptyString => EmptyString
  | String c s' =>
      match skip with
      | S k => replace_from old new k s'
      | O => if startswith old s
             then new +:+ replace_from old new (String.length old - 1) s'
             else String c (replace_from old new 0 s')
      end
  end.

Definition replace (old new s : string) : string := replace_from old new 0 s.

(** [s[len(p):]] when [s] starts with [p]. *)
Fixpoint strip_prefix (p s : string) : option string :=
  match p, s with
  | EmptyString, _ => Some s
  | String _ _, EmptyString => None
  | String a p', String b s' => if Ascii.eqb a b then strip_prefix p' s' else None
  end.

(** The longest run of characters other than '/' at the head of [s], and
    what follows it: what a greedy [[^/]*] consumes. *)
Fixpoint span_not_slash (s : string) : string * string :=
  match s with
  | EmptyString => (EmptyString, EmptyString)
  | String c s' =>
      if Ascii.eqb c "/" then (EmptyString, s)
      else let '(run, rest) := span_not_slash s' in (String c run, rest)
  end.

End Py.

(** ** Data model *)

(** One entry of the root listing: [item['name']], [item['type']]. *)
Record item := Item { name : string; type : string }.

(** The repository metadata; only ['language'] is read. [None] stands
    for an absent key as well as for a JSON null. *)
Record repo_info := RepoInfo { language : option string }.

Record step := Step {
  title : string;
  description : string;
  commands : list string;
  notes : list string
}.

(** [[item['name'].lower() for item in contents if item['type'] == 'file']],
    the first statement of the classifier and of every generator that
    looks at the manifest. *)
Definition files_of (contents : list item) : list string :=
  map (λ it, Py.lower (name it)) (filter (λ it, type it = "file") contents).

(** ** Technology classifier *)

(** The dict literal [tech_patterns], in declaration order. *)
Definition tech_patterns : list (string * list string) :=
  [ ("Python", ["requirements.txt"; "setup.py"; "pyproject.toml"; "pipfile";
                "conda.yml"; "environment.yml"]);
    ("Node.js", ["package.json"; "package-lock.json"; "yarn.lock"]);
    ("React", ["package.json"]);
    ("Django", ["manage.py"; "django"]);
    ("Flask", ["app.py"; "flask"]);
    ("FastAPI", ["fastapi"; "uvicorn"]);
    ("Streamlit", ["streamlit"; ".streamlit"]);
    ("Docker", ["dockerfile"; "docker-compose.yml"; "docker-compose.yaml"]);
    ("Java", ["pom.xml"; "build.gradle"; "gradle.properties"]);
    ("Go", ["go.mod"; "go.sum"]);
    ("Rust", ["cargo.toml"; "cargo.lock"]);
    ("Ruby", ["gemfile"; "gemfile.lock"]);
    ("PHP", ["composer.json"; "composer.lock"]);
    ("C++", ["makefile"; "cmake"; "cmakelists.txt"]);
    ("HTML/CSS/JS", ["index.html"; "style.css"; "script.js"]);
    ("Vue.js", ["vue.config.js"; "nuxt.config.js"]);
    ("Angular", ["angular.json"; "ng"]);
    ("Next.js", ["next.config.js"]) ].

(** [any(pattern in ' '.join(files) for pattern in patterns)] *)
Definition any_pattern (files : list string) (patterns : list string) : bool :=
  existsb (λ pattern, Py.contains pattern (Py.join " " files)) patterns.

(** The set after [if repo_data.get('language'): tech_stack.add(...)]. *)
Definition language_tag (repo_data : repo_info) : gset string :=
  match language repo_data with
  | Some l => if Py.truthy l then {[ l ]} else ∅
  | None => ∅
  end.

(** One round of the loop over [tech_patterns.items()]. *)
Definition add_if_matched (files : list string)
    (acc : gset string) (entry : string * list string) : gset string :=
  if any_pattern files entry.2 then acc ∪ {[ entry.1 ]} else acc.

(** The local [tech_stack] of [detect_technologies] when it returns. *)
Definition tech_stack (contents : list item) (repo_data : repo_info) : gset string :=
  let files := files_of contents in
  foldl (add_if_matched files) (language_tag repo_data) tech_patterns.

(** [detect_technologies contents repo_data l]: the call can return the
    list [l], that is, [l] is [list(tech_stack)]. *)
Definition detect_technologies (contents : list item) (repo_data : repo_info)
    (l : list string) : Prop :=
  Py.list_of_set (tech_stack contents repo_data) l.

(** ** Step generators *)

Definition clone_step (owner repo : string) : step :=
  {| title := "📥 Clone the Repository";
     description := "Download the repository to your local machine";
     commands := [ "git clone https://github.com/" +:+ owner +:+ "/" +:+ repo +:+ ".git";
                   "cd " +:+ repo ];
     notes := ["Make sure you have Git installed on your system"] |}.

Definition venv_step : step :=
  {| title := "🐍 Set up Python Environment";
     description := "Create and activate a virtual environment";
     commands := [ "python -m venv venv";
                   "# On Windows:";
                   "venv\Scripts\activate";
                   "# On macOS/Linux:";
                   "source venv/bin/activate" ];
     notes := [ "Python 3.7+ recommended";
                "Virtual environment helps avoid dependency conflicts" ] |}.

(** The [if]/[elif] chain filling [install_commands]. *)
Definition install_commands (files : list string) : list string :=
  if Py.mem "requirements.txt" files then ["pip install -r requirements.txt"]
  else if Py.mem "setup.py" files then ["pip install -e ."]
  else if Py.mem "pyproject.toml" files then ["pip install -e ."]
  else if Py.mem "pipfile" files then ["pip install pipenv"; "pipenv install"]
  else ["# Check for any Python dependencies and install manually"].

Definition install_step (cmds : list string) : step :=
  {| title := "📦 Install Dependencies";
     description := "Install required Python packages";
     commands := cmds;
     notes := ["Dependencies are listed in requirements.txt or similar files"] |}.

Definition generate_python_steps (owner repo : string) (contents : list item) : list step :=
  let files := files_of contents in
  [ venv_step; install_step (install_commands files) ].

Definition generate_node_steps (owner repo : string) (contents : list item) : list step :=
  let files := files_of contents in
  let '(package_manager, install_cmd) :=
    if Py.mem "yarn.lock" files then ("yarn", "yarn install")
    else if Py.mem "package-lock.json" files then ("npm", "npm install")
    else ("npm", "npm install") in
  [ {| title := "📦 Install Node.js Dependencies";
       description := "Install packages using " +:+ package_manager;
       commands := [install_cmd];
       notes := [ "Make sure you have Node.js installed (version 14+ recommended)";
                  "This project uses " +:+ package_manager +:+ " as package manager" ] |} ].

Definition generate_docker_steps : list step :=
  [ {| title := "🐳 Docker Setup (Alternative)";
       description := "Run the application using Docker";
       commands := [ "docker build -t repo-app ."; "docker run -p 8080:8080 repo-app" ];
       notes := [ "Make sure Docker is installed and running";
                  "Check Dockerfile for specific port configurations" ] |} ].

Definition maven_step : step :=
  {| title := "☕ Java Maven Setup";
     description := "Build and run Java application with Maven";
     commands := [ "mvn clean install"; "mvn spring-boot:run" ];
     notes := ["Make sure Java 8+ and Maven are installed"] |}.

Definition gradle_step : step :=
  {| title := "☕ Java Gradle Setup";
     description := "Build and run Java application with Gradle";
     commands := [ "./gradlew build"; "./gradlew run" ];
     notes := [ "Make sure Java 8+ is installed"; "Gradle wrapper is included" ] |}.

Definition generate_java_steps (contents : list item) : list step :=
  let files := files_of contents in
  if Py.mem "pom.xml" files then [maven_step]
  else if existsb (λ f, Py.contains "gradle" f) files then [gradle_step]
  else [].

(** ** Run-command resolver *)

(** The [if]/[elif] chain filling [run_commands]. *)
Definition run_commands (tech_stack : list string) (files : list string) : list string :=
  if Py.mem "Streamlit" tech_stack then
    if Py.mem "app.py" files then ["streamlit run app.py"]
    else if Py.mem "main.py" files then ["streamlit run main.py"]
    else ["streamlit run <main_file>.py"]
  else if Py.mem "Flask" tech_stack then
    if Py.mem "app.py" files then ["export FLASK_APP=app.py"; "flask run"]
    else if Py.mem "main.py" files then ["export FLASK_APP=main.py"; "flask run"]
    else ["python app.py"]
  else if Py.mem "Django" tech_stack then
    ["python manage.py migrate"; "python manage.py runserver"]
  else if Py.mem "FastAPI" tech_stack then
    if Py.mem "main.py" files then ["uvicorn main:app --reload"]
    else ["uvicorn app:app --reload"]
  else if Py.mem "Node.js" tech_stack then
    ["npm start"] ++ (if Py.mem "React" tech_stack then ["# Or: npm run dev"] else [])
  else if Py.mem "Python" tech_stack then
    if Py.mem "main.py" files then ["python main.py"]
    else if Py.mem "app.py" files then ["python app.py"]
    else ["python <main_file>.py"]
  else [].

Definition run_step (cmds : list string) : step :=
  {| title := "🚀 Run the Application";
     description := "Start the application";
     commands := cmds;
     notes := [ "Check the README file for specific run instructions";
                "Application will typically run on localhost with a specific port" ] |}.

Definition env_step : step :=
  {| title := "⚙️ Environment Configuration";
     description := "Set up environment variables";
     commands := [ "# Copy example environment file (if exists)";
                   "cp .env.example .env";
                   "# Edit .env file with your configurations" ];
     notes := [ "Check for .env.example or similar configuration files";
                "Add necessary API keys, database URLs, etc." ] |}.

(** [[f for f in files if '.env' in f or 'config' in f]] *)
Definition env_files (files : list string) : list string :=
  List.filter (λ f, Py.contains ".env" f || Py.contains "config" f) files.

(** A list is true when it is not empty. *)
Definition nonempty {A} (l : list A) : bool :=
  match l with [] => false | _ => true end.

Definition generate_run_steps (tech_stack : list string) (contents : list item)
    (owner repo : string) : list step :=
  let files := files_of contents in
  let cmds := run_commands tech_stack files in
  (if nonempty cmds then [run_step cmds] else [])
  ++ (if nonempty (env_files files) then [env_step] else []).

(** ** Synthesizer *)

Definition generate_setup_steps (owner repo : string) (tech_stack : list string)
    (repo_data : repo_info) (contents : list item) : list step :=
  [clone_step owner repo]
  ++ (if Py.mem "Python" tech_stack then generate_python_steps owner repo contents else [])
  ++ (if Py.mem "Node.js" tech_stack then generate_node_steps owner repo contents else [])
  ++ (if Py.mem "Docker" tech_stack then generate_docker_steps else [])
  ++ (if Py.mem "Java" tech_stack then generate_java_steps contents else [])
  ++ generate_run_steps tech_stack contents owner repo.

(** ** Vocabulary of the properties *)

(** [p] occurs in [s]: the meaning of Python's [p in s] on strings. *)
Definition substring (p s : string) : Prop :=
  ∃ pre post, s = pre +:+ p +:+ post.

(** The manifest has an entry of kind file whose lowercase name is [n]. *)
Definition has_file (contents : list item) (n : string) : Prop :=
  ∃ it, it ∈ contents ∧ type it = "file" ∧ Py.lower (name it) = n.

(** The manifest without its non-file entries. *)
Definition files_only (contents : list item) : list item :=
  filter (λ it, type it = "file") contents.

(** The branches of the resolver, in the order of its [if]/[elif] chain,
    and the first of them whose tag is present. *)
Definition branches : list string :=
  ["Streamlit"; "Flask"; "Django"; "FastAPI"; "Node.js"; "Python"].

Definition first_branch (tags : list string) : option string :=
  List.find (λ b, Py.mem b tags) branches.

(** A command is a placeholder when it names the unresolved entry point
    [<main_file>] in place of a file. *)
Definition placeholder (cmd : string) : bool := Py.contains "<main_file>" cmd.


(** Some file of the manifest has ".env" or "config" in its lowercase name. *)
Definition has_env_file (contents : list item) : Prop :=
  ∃ it, it ∈ contents ∧ type it = "file" ∧
        (Py.contains ".env" (Py.lower (name it)) = true ∨
         Py.contains "config" (Py.lower (name it)) = true).

(** A step that does not carry the title of the environment-configuration
    step. *)
Definition not_env (s : step) : Prop := title s ≠ title env_step.

(** ** URL parsing *)

(** The pattern [github\.com/([^/]+)/([^/]+)] tried at the head of [s],
    with its two groups. A greedy [[^/]+] takes the whole run up to the
    next '/'; giving characters back never helps, since the character
    after a shorter run is not a '/'. So the pattern matches exactly when
    both runs are non-empty and a '/' stands between them. *)
Definition match_repo_url (s : string) : option (string * string) :=
  match Py.strip_prefix "github.com/" s with
  | None => None
  | Some s1 =>
      let '(g1, s2) := Py.span_not_slash s1 in
      match g1, s2 with
      | String _ _, String _ s3 =>
          let '(g2, _) := Py.span_not_slash s3 in
          match g2 with
          | String _ _ => Some (g1, g2)
          | EmptyString => None
          end
      | _, _ => None
      end
  end.

(** [re.search(pattern, s)]: the match at the leftmost position of [s]
    that has one. *)
Fixpoint search_repo_url (s : string) : option (string * string) :=
  match match_repo_url s with
  | Some groups => Some groups
  | None =>
      match s with
      | EmptyString => None
      | String _ s' => search_repo_url s'
      end
  end.

(** [extract_repo_info]; [None] stands for the pair [(None, None)]. *)
Definition extract_repo_info (github_url : string) : option (string * string) :=
  match search_repo_url github_url with
  | Some (g1, g2) => Some (g1, Py.replace ".git" "" g2)
  | None => None
  end.

(** The number of '/' in [s] that have at least one character behind
    them. *)
Fixpoint inner_slashes (s : string) : nat :=
  match s with
  | EmptyString => 0
  | String c s' =>
      (if Ascii.eqb c "/" then match s' with EmptyString => 0 | _ => 1 end else 0)
      + inner_slashes s'
  end.

(** A step that the presenter shows in full: it has a title, at least one
    command, no empty command, and at least one note. *)
Definition complete_step (s : step) : Prop :=
  title s ≠ "" ∧ commands s ≠ [] ∧ Forall (λ c, c ≠ "") (commands s) ∧ notes s ≠ [].

(** The titles a plan can hold, in the order in which the synthesizer
    emits them. *)
Definition title_order : list string :=
  [ "📥 Clone the Repository"; "🐍 Set up Python Environment";
    "📦 Install Dependencies"; "📦 Install Node.js Dependencies";
    "🐳 Docker Setup (Alternative)"; "☕ Java Maven Setup";
    "☕ Java Gradle Setup"; "🚀 Run the Application";
    "⚙️ Environment Configuration" ].

(** ** Sanity checks on concrete inputs *)

Example files_of_ex :
  files_of [Item "App.PY" "file"; Item "config" "dir"; Item "README.md" "file"]
  = ["app.py"; "readme.md"].
Proof. reflexivity. Qed.

Example tech_stack_ex :
  tech_stack [Item "package.json" "file"] (RepoInfo None) = {["Node.js"; "React"]}.
Proof. vm_compute. reflexivity. Qed.

Example plan_ex :
  map title (generate_setup_steps "o" "r" ["Python"; "Flask"] (RepoInfo (Some "Python"))
               [Item "requirements.txt" "file"; Item ".env.sample" "file"])
  = [ "📥 Clone the Repository"; "🐍 Set up Python Environment";
      "📦 Install Dependencies"; "🚀 Run the Application";
      "⚙️ Environment Configuration" ].
Proof. reflexivity. Qed.

Example extract_repo_info_ex :
  extract_repo_info "https://github.com/amal-alexander/github-repo-guide.git"
    = Some ("amal-alexander", "github-repo-guide")
  ∧ extract_repo_info "https://github.com/octocat/Hello-World/tree/main/src"
    = Some ("octocat", "Hello-World")
  ∧ extract_repo_info "https://github.com/octocat" = None
  ∧ extract_repo_info "https://github.com/octocat/" = None
  ∧ extract_repo_info "github.com//github.com/a/b" = Some ("a", "b")
  ∧ extract_repo_info "https://gitlab.com/a/b" = None.
Proof. repeat split; reflexivity. Qed.

Example replace_ex :
  Py.replace ".git" "" "my.github.io" = "myhub.io"
  ∧ Py.replace ".git" "" ".g.gitit" = ".git"
  ∧ Py.replace "aa" "b" "aaaaa" = "bba".
Proof. repeat split; reflexivity. Qed.

(** ** Basic facts *)

Lemma mem_true (x : string) (l : list string) : Py.mem x l = true ↔ x ∈ l.
Proof. unfold Py.mem. apply bool_decide_eq_true. Qed.

Lemma mem_false (x : string) (l : list string) : Py.mem x l = false ↔ x ∉ l.
Proof. unfold Py.mem. apply bool_decide_eq_false. Qed.

Lemma or_iff_both (A B C D : Prop) : (A ↔ B) → (C ↔ D) → (A ∨ C ↔ B ∨ D).
Proof. tauto. Qed.


(** Membership of a literal in a literal list, by evaluation. *)
Ltac by_eval := apply (bool_decide_unpack _); vm_compute; exact I.

Ltac mem_cases :=
  repeat match goal with
  | H : _ ∈ _ |- _ => apply mem_true in H; rewrite H
  | H : _ ∉ _ |- _ => apply mem_false in H; rewrite H
  end.

(** [Py.startswith] and [Py.contains] decide prefix and substring. *)
Lemma startswith_spec (p s : string) :
  Py.startswith p s = true ↔ ∃ post, s = p +:+ post.
Proof.
  revert s. induction p as [|a p IH]; intros s; simpl.
  - split; [intros _; by exists s | done].
  - destruct s as [|b s].
    + split; [done | intros [post E]; discriminate E].
    + destruct (Ascii.eqb a b) eqn:Eab.
      * apply Ascii.eqb_eq in Eab as ->. rewrite IH. split.
        -- intros [post ->]. by exists post.
        -- intros [post E]. injection E as ->. by exists post.
      * apply Ascii.eqb_neq in Eab. split; [done |].
        intros [post E]. injection E as E1 _. congruence.
Qed.

Lemma contains_spec (p s : string) :
  Py.contains p s = true ↔ substring p s.
Proof.
  unfold substring. split.
  - induction s as [|c s IH]; simpl; rewrite orb_true_iff.
    + intros [H | H]; [| done].
      apply startswith_spec in H as [post ->]. by exists "", post.
    + intros [H | H].
      * apply startswith_spec in H as [post ->]. by exists "", post.
      * destruct (IH H) as (pre & post & ->). by exists (String c pre), post.
  - intros (pre & post & ->). induction pre as [|c pre IH]; simpl.
    + assert (Hs : Py.startswith p (p +:+ post) = true)
        by (apply startswith_spec; by exists post).
      destruct (p +:+ post); simpl; by rewrite Hs.
    + rewrite IH. apply orb_true_r.
Qed.

Lemma files_of_elem (contents : list item) (f : string) :
  f ∈ files_of contents ↔
  ∃ it, it ∈ contents ∧ type it = "file" ∧ Py.lower (name it) = f.
Proof.
  unfold files_of. rewrite list_elem_of_In, in_map_iff. split.
  - intros (it & E & H). apply list_elem_of_In, list_elem_of_filter in H as [Ht Hin].
    by exists it.
  - intros (it & Hin & Ht & E). exists it. split; [done |].
    apply list_elem_of_In, list_elem_of_filter. by split.
Qed.

Lemma has_file_iff (contents : list item) (n : string) :
  has_file contents n ↔ n ∈ files_of contents.
Proof. symmetry. apply files_of_elem. Qed.

Lemma has_file_mem (contents : list item) (n : string) :
  has_file contents n → Py.mem n (files_of contents) = true.
Proof. intros H. by apply mem_true, has_file_iff. Qed.

Lemma no_file_mem (contents : list item) (n : string) :
  ¬ has_file contents n → Py.mem n (files_of contents) = false.
Proof. intros H. apply mem_false. intros Hin. by apply H, has_file_iff. Qed.

Ltac file_cases :=
  repeat match goal with
  | H : has_file _ _ |- _ => apply has_file_mem in H; rewrite H
  | H : ¬ has_file _ _ |- _ => apply no_file_mem in H; rewrite H
  end.

(** ** The run-command resolver *)

Lemma run_commands_streamlit (tech_stack files : list string) :
  "Streamlit" ∈ tech_stack →
  run_commands tech_stack files = run_commands ["Streamlit"] files.
Proof. intros H. unfold run_commands. mem_cases. reflexivity. Qed.

(** The commands depend on the tags only through the first branch whose
    tag is present (and, for the Node.js branch, through the React tag). *)
Lemma run_commands_first_branch (tags files : list string) :
  run_commands tags files =
  match first_branch tags with
  | Some b => run_commands (b :: if Py.mem "React" tags then ["React"] else []) files
  | None => []
  end.
Proof.
  unfold first_branch, branches, run_commands. simpl.
  destruct (Py.mem "Streamlit" tags); [by destruct (Py.mem "React" tags) |].
  destruct (Py.mem "Flask" tags); [by destruct (Py.mem "React" tags) |].
  destruct (Py.mem "Django" tags); [by destruct (Py.mem "React" tags) |].
  destruct (Py.mem "FastAPI" tags); [by destruct (Py.mem "React" tags) |].
  destruct (Py.mem "Node.js" tags); [by destruct (Py.mem "React" tags) |].
  destruct (Py.mem "Python" tags); [by destruct (Py.mem "React" tags) | done].
Qed.

(** C1. The resolver is a first-match cascade headed by Streamlit: once
    the Streamlit tag is present the run steps are those of the tag list
    holding Streamlit alone, whatever other tags there are, and the one
    command is one of the three Streamlit commands. For the manifest with
    the single file app.py and the tags Streamlit and Flask the run step
    has the single command "streamlit run app.py" and no Flask command.
    More generally two tag lists with the same first present branch and
    the same React membership give the same run steps. *)
Theorem streamlit_first_match_wins :
  (∀ (tags1 tags2 : list string) (contents : list item) (owner repo : string),
     first_branch tags1 = first_branch tags2 →
     Py.mem "React" tags1 = Py.mem "React" tags2 →
     generate_run_steps tags1 contents owner repo
       = generate_run_steps tags2 contents owner repo)
  ∧ (∀ (tech_stack : list string) (contents : list item) (owner repo : string),
     "Streamlit" ∈ tech_stack →
     generate_run_steps tech_stack contents owner repo
       = generate_run_steps ["Streamlit"] contents owner repo
     ∧ ∃ cmd, run_commands tech_stack (files_of contents) = [cmd]
              ∧ cmd ∈ ["streamlit run app.py"; "streamlit run main.py";
                       "streamlit run <main_file>.py"])
  ∧ (∀ owner repo,
       let steps := generate_run_steps ["Streamlit"; "Flask"] [Item "app.py" "file"] owner repo in
       steps = [run_step ["streamlit run app.py"]]
       ∧ (commands <$> head steps) = Some ["streamlit run app.py"]
       ∧ (∀ s, s ∈ steps → ("export FLASK_APP=app.py" ∉ commands s)
                           ∧ ("flask run" ∉ commands s)
                           ∧ ("python app.py" ∉ commands s))).
Proof.
  split; [| split].
  - intros tags1 tags2 contents owner repo Hb Hr. unfold generate_run_steps.
    by rewrite (run_commands_first_branch tags1), (run_commands_first_branch tags2), Hb, Hr.
  - intros ts contents owner repo H. split.
    + unfold generate_run_steps. by rewrite run_commands_streamlit.
    + rewrite run_commands_streamlit by done. unfold run_commands. simpl.
      repeat case_match; eexists; (split; [reflexivity | by_eval]).
  - intros owner repo. cbv zeta. split; [reflexivity | split; [reflexivity |]].
    intros s Hs. apply list_elem_of_singleton in Hs as ->. simpl.
    repeat split; intros Hin; apply list_elem_of_singleton in Hin; discriminate.
Qed.

Lemma streamlit_first_match_wins_witness :
  "Streamlit" ∈ ["Streamlit"; "Flask"]
  ∧ generate_run_steps ["Streamlit"; "Flask"] [Item "app.py" "file"] "octocat" "demo"
    = generate_run_steps ["Streamlit"] [Item "app.py" "file"] "octocat" "demo".
Proof.
  assert (H : "Streamlit" ∈ ["Streamlit"; "Flask"]) by by_eval.
  split; [exact H |].
  exact (proj1 (proj1 (proj2 streamlit_first_match_wins)
                  ["Streamlit"; "Flask"] [Item "app.py" "file"] "octocat" "demo" H)).
Defined.

(** C10. In the Node.js branch (Node.js present; Streamlit, Flask, Django
    and FastAPI absent) the resolver gives the run step first, and the
    commands of that step are ["npm start"] without the React tag and
    ["npm start"; "# Or: npm run dev"] with it; at most the environment
    step follows. *)
Theorem node_branch_commands (tech_stack : list string) (contents : list item)
    (owner repo : string) :
  "Node.js" ∈ tech_stack →
  "Streamlit" ∉ tech_stack → "Flask" ∉ tech_stack →
  "Django" ∉ tech_stack → "FastAPI" ∉ tech_stack →
  ∃ s rest,
    generate_run_steps tech_stack contents owner repo = s :: rest
    ∧ title s = "🚀 Run the Application"
    ∧ ("React" ∉ tech_stack → commands s = ["npm start"])
    ∧ ("React" ∈ tech_stack → commands s = ["npm start"; "# Or: npm run dev"])
    ∧ (∀ s', s' ∈ rest → s' = env_step).
Proof.
  intros Hn Hs Hf Hd Ha. unfold generate_run_steps, run_commands. mem_cases.
  assert (Hrest : ∀ s' : step,
            s' ∈ (if nonempty (env_files (files_of contents)) then [env_step] else [])
            → s' = env_step).
  { intros s'. destruct (nonempty _); intros Hin;
      [by apply list_elem_of_singleton in Hin | by apply elem_of_nil in Hin]. }
  destruct (Py.mem "React" tech_stack) eqn:Er; simpl; eexists _, _;
    (split; [reflexivity |]); (split; [reflexivity |]).
  - apply mem_true in Er. split; [by intros Hr |]. split; [by intros _ | exact Hrest].
  - apply mem_false in Er. split; [by intros _ |]. split; [by intros Hr | exact Hrest].
Qed.

Lemma node_branch_commands_witness :
  (commands <$> head (generate_run_steps ["Node.js"; "React"]
                        [Item "package.json" "file"] "o" "r"))
    = Some ["npm start"; "# Or: npm run dev"]
  ∧ (commands <$> head (generate_run_steps ["Node.js"] [Item "package.json" "file"] "o" "r"))
    = Some ["npm start"].
Proof.
  split.
  - destruct (node_branch_commands ["Node.js"; "React"] [Item "package.json" "file"] "o" "r")
      as (s & rest & E & _ & _ & Hreact & _); [by_eval..|].
    rewrite E. simpl. f_equal. apply Hreact. by_eval.
  - destruct (node_branch_commands ["Node.js"] [Item "package.json" "file"] "o" "r")
      as (s & rest & E & _ & Hplain & _ & _); [by_eval..|].
    rewrite E. simpl. f_equal. apply Hplain. by_eval.
Defined.

(** C4, as stated, fails on the code. The Python branch takes main.py
    before app.py: with both files in the manifest the run step's command
    is "python main.py". The Node.js branch resolves no entry point: its
    command is "npm start" with or without app.py, and without app.py and
    main.py it is still "npm start", which is no placeholder. *)
Lemma python_branch_prefers_main_py :
  (commands <$> head (generate_run_steps ["Python"]
                        [Item "app.py" "file"; Item "main.py" "file"] "octocat" "demo"))
    = Some ["python main.py"]
  ∧ (commands <$> head (generate_run_steps ["Node.js"] [] "octocat" "demo"))
    = Some ["npm start"]
  ∧ (commands <$> head (generate_run_steps ["Node.js"] [Item "app.py" "file"]
                          "octocat" "demo"))
    = Some ["npm start"]
  ∧ existsb placeholder ["npm start"] = false.
Proof. repeat split; reflexivity. Qed.

(** C4, amended. Entry-point resolution per branch, read off the commands
    of the run step: Streamlit takes app.py, then main.py, else the
    placeholder "streamlit run <main_file>.py"; Flask takes app.py, then
    main.py; the Python branch takes main.py, then app.py, else the
    placeholder "python <main_file>.py"; the Node.js branch resolves no
    entry point, the commands of its run step are the same for every
    manifest and hold no placeholder. *)
Theorem entry_point_resolution (tech_stack : list string) (contents : list item)
    (owner repo : string) :
  let cmds := commands <$> head (generate_run_steps tech_stack contents owner repo) in
  ("Streamlit" ∈ tech_stack →
     (has_file contents "app.py" → cmds = Some ["streamlit run app.py"])
     ∧ (¬ has_file contents "app.py" → has_file contents "main.py" →
          cmds = Some ["streamlit run main.py"])
     ∧ (¬ has_file contents "app.py" → ¬ has_file contents "main.py" →
          cmds = Some ["streamlit run <main_file>.py"]
          ∧ forallb placeholder ["streamlit run <main_file>.py"] = true))
  ∧ ("Streamlit" ∉ tech_stack → "Flask" ∈ tech_stack →
     (has_file contents "app.py" →
        cmds = Some ["export FLASK_APP=app.py"; "flask run"])
     ∧ (¬ has_file contents "app.py" → has_file contents "main.py" →
          cmds = Some ["export FLASK_APP=main.py"; "flask run"]))
  ∧ ("Streamlit" ∉ tech_stack → "Flask" ∉ tech_stack → "Django" ∉ tech_stack →
     "FastAPI" ∉ tech_stack → "Node.js" ∈ tech_stack →
     (∃ l, cmds = Some l ∧ existsb placeholder l = false)
     ∧ ∀ contents',
         (commands <$> head (generate_run_steps tech_stack contents' owner repo)) = cmds)
  ∧ ("Streamlit" ∉ tech_stack → "Flask" ∉ tech_stack → "Django" ∉ tech_stack →
     "FastAPI" ∉ tech_stack → "Node.js" ∉ tech_stack → "Python" ∈ tech_stack →
     (has_file contents "main.py" → cmds = Some ["python main.py"])
     ∧ (¬ has_file contents "main.py" → has_file contents "app.py" →
          cmds = Some ["python app.py"])
     ∧ (¬ has_file contents "main.py" → ¬ has_file contents "app.py" →
          cmds = Some ["python <main_file>.py"]
          ∧ forallb placeholder ["python <main_file>.py"] = true)).
Proof.
  cbv zeta. unfold generate_run_steps, run_commands. split_and!.
  - intros Hs. mem_cases. split_and!; intros; file_cases; try split; reflexivity.
  - intros Hs Hf. mem_cases. split_and!; intros; file_cases; reflexivity.
  - intros Hs Hf Hd Ha Hn. mem_cases. split.
    + destruct (Py.mem "React" tech_stack); eexists; (split; reflexivity).
    + intros contents'. by destruct (Py.mem "React" tech_stack).
  - intros Hs Hf Hd Ha Hn Hp. mem_cases.
    split_and!; intros; file_cases; try split; reflexivity.
Qed.

Lemma entry_point_resolution_witness :
  (commands <$> head (generate_run_steps ["Flask"]
                        [Item "app.py" "dir"; Item "Main.py" "file"] "o" "r"))
    = Some ["export FLASK_APP=main.py"; "flask run"]
  ∧ (commands <$> head (generate_run_steps ["Python"; "Docker"]
                          [Item "main.py" "file"; Item "app.py" "file"] "o" "r"))
    = Some ["python main.py"].
Proof.
  split.
  - destruct (entry_point_resolution ["Flask"] [Item "app.py" "dir"; Item "Main.py" "file"]
                "o" "r") as (_ & Hflask & _ & _).
    destruct Hflask as [_ Hmain]; [by_eval | by_eval |].
    apply Hmain.
    + intros (it & Hin & Hty & Hn). rewrite !elem_of_cons, elem_of_nil in Hin.
      destruct Hin as [-> | [-> | []]]; discriminate.
    + exists (Item "Main.py" "file"). split; [right; left | by split].
  - destruct (entry_point_resolution ["Python"; "Docker"]
                [Item "main.py" "file"; Item "app.py" "file"] "o" "r")
      as (_ & _ & _ & Hpython).
    destruct Hpython as [Hmain _]; [by_eval.. |].
    apply Hmain. exists (Item "main.py" "file"). split; [left | by split].
Defined.

(** ** The generators *)

(** C5. With the Python tag present the plan continues, after the Clone
    step, with the two steps of the Python generator. The first is the
    fixed virtual-environment step: create the environment, then the
    Windows and the POSIX activation command, each under its comment. The
    second is the dependency-install step, whose commands are chosen by
    first match over the files of the manifest, by lowercase name:
    requirements.txt, else setup.py, else pyproject.toml, else Pipfile,
    else one placeholder comment. *)
Theorem python_generator_steps (owner repo : string) (tech_stack : list string)
    (repo_data : repo_info) (contents : list item) :
  "Python" ∈ tech_stack →
  ∃ venv install rest,
    generate_python_steps owner repo contents = [venv; install]
    ∧ generate_setup_steps owner repo tech_stack repo_data contents
      = clone_step owner repo :: venv :: install :: rest
    ∧ title venv = "🐍 Set up Python Environment"
    ∧ commands venv = [ "python -m venv venv"; "# On Windows:"; "venv\Scripts\activate";
                        "# On macOS/Linux:"; "source venv/bin/activate" ]
    ∧ title install = "📦 Install Dependencies"
    ∧ (has_file contents "requirements.txt" →
         commands install = ["pip install -r requirements.txt"])
    ∧ (¬ has_file contents "requirements.txt" → has_file contents "setup.py" →
         commands install = ["pip install -e ."])
    ∧ (¬ has_file contents "requirements.txt" → ¬ has_file contents "setup.py" →
       has_file contents "pyproject.toml" → commands install = ["pip install -e ."])
    ∧ (¬ has_file contents "requirements.txt" → ¬ has_file contents "setup.py" →
       ¬ has_file contents "pyproject.toml" → has_file contents "pipfile" →
         commands install = ["pip install pipenv"; "pipenv install"])
    ∧ (¬ has_file contents "requirements.txt" → ¬ has_file contents "setup.py" →
       ¬ has_file contents "pyproject.toml" → ¬ has_file contents "pipfile" →
         commands install = ["# Check for any Python dependencies and install manually"]).
Proof.
  intros Hpy. unfold generate_setup_steps, generate_python_steps. cbv zeta.
  apply mem_true in Hpy. rewrite Hpy. simpl.
  eexists _, _, _. do 5 (split; [reflexivity |]).
  unfold install_commands. simpl. split_and!; intros; file_cases; reflexivity.
Qed.

Lemma python_generator_steps_witness :
  map commands (generate_python_steps "octocat" "demo" [Item "requirements.txt" "file"])
  = [ [ "python -m venv venv"; "# On Windows:"; "venv\Scripts\activate";
        "# On macOS/Linux:"; "source venv/bin/activate" ];
      ["pip install -r requirements.txt"] ]
  ∧ map commands (generate_python_steps "octocat" "demo"
                    [Item "requirements.txt" "dir"; Item "Pipfile" "file"])
  = [ [ "python -m venv venv"; "# On Windows:"; "venv\Scripts\activate";
        "# On macOS/Linux:"; "source venv/bin/activate" ];
      ["pip install pipenv"; "pipenv install"] ].
Proof.
  split.
  - destruct (python_generator_steps "octocat" "demo" ["Python"] (RepoInfo (Some "Python"))
                [Item "requirements.txt" "file"])
      as (venv & install & rest & E & _ & _ & Hv & _ & Hreq & _); [by_eval |].
    rewrite E. simpl. rewrite Hv, Hreq; [reflexivity |].
    exists (Item "requirements.txt" "file"). split; [left | by split].
  - destruct (python_generator_steps "octocat" "demo" ["Python"] (RepoInfo (Some "Python"))
                [Item "requirements.txt" "dir"; Item "Pipfile" "file"])
      as (venv & install & rest & E & _ & _ & Hv & _ & _ & _ & _ & Hpip & _); [by_eval |].
    rewrite E. simpl. rewrite Hv, Hpip; [reflexivity | | | |].
    + intros (it & Hin & Hty & Hn). rewrite !elem_of_cons, elem_of_nil in Hin.
      destruct Hin as [-> | [-> | []]]; discriminate.
    + intros (it & Hin & Hty & Hn). rewrite !elem_of_cons, elem_of_nil in Hin.
      destruct Hin as [-> | [-> | []]]; discriminate.
    + intros (it & Hin & Hty & Hn). rewrite !elem_of_cons, elem_of_nil in Hin.
      destruct Hin as [-> | [-> | []]]; discriminate.
    + exists (Item "Pipfile" "file"). split; [right; left | by split].
Defined.

(** C6. The Java generator is first-match: with pom.xml among the files
    it gives the Maven step alone, also when a gradle file is there too;
    without pom.xml and with a file name that has "gradle" in it, the
    Gradle wrapper step alone; otherwise nothing, so that a Java tag that
    comes from the metadata only adds no step to the plan. *)
Theorem java_generator_first_match (contents : list item) :
  let files := files_of contents in
  ("pom.xml" ∈ files → generate_java_steps contents = [maven_step])
  ∧ ("pom.xml" ∉ files → (∃ f, f ∈ files ∧ substring "gradle" f) →
       generate_java_steps contents = [gradle_step])
  ∧ ("pom.xml" ∉ files → (∀ f, f ∈ files → ¬ substring "gradle" f) →
       generate_java_steps contents = [])
  ∧ commands maven_step = ["mvn clean install"; "mvn spring-boot:run"]
  ∧ commands gradle_step = ["./gradlew build"; "./gradlew run"]
  ∧ generate_java_steps [Item "pom.xml" "file"; Item "build.gradle" "file"] = [maven_step]
  ∧ (∀ owner repo,
       generate_setup_steps owner repo ["Java"] (RepoInfo (Some "Java")) []
       = [clone_step owner repo]).
Proof.
  cbv zeta. unfold generate_java_steps. repeat split; try reflexivity.
  - intros. by mem_cases.
  - intros Hpom (f & Hf & Hg). mem_cases.
    assert (E : existsb (λ f, Py.contains "gradle" f) (files_of contents) = true).
    { apply existsb_exists. exists f. split; [by apply list_elem_of_In |].
      by apply contains_spec. }
    by rewrite E.
  - intros Hpom Hall. mem_cases.
    destruct (existsb _ _) eqn:E; [| reflexivity].
    apply existsb_exists in E as (f & Hf & Hg).
    apply list_elem_of_In in Hf. apply contains_spec in Hg. by destruct (Hall f).
Qed.

Lemma java_generator_first_match_witness :
  generate_java_steps [Item "Build.Gradle.kts" "file"; Item "pom.xml" "dir"] = [gradle_step].
Proof.
  apply (java_generator_first_match [Item "Build.Gradle.kts" "file"; Item "pom.xml" "dir"]).
  - by_eval.
  - exists "build.gradle.kts". split; [by_eval |]. by exists "build.", ".kts".
Defined.

(** ** The synthesizer *)

(** C2. Whatever the inputs, the plan starts with the Clone step, whose
    commands are exactly two: the clone command and the change of
    directory. *)
Theorem plan_starts_with_clone (owner repo : string) (tech_stack : list string)
    (repo_data : repo_info) (contents : list item) :
  ∃ rest,
    generate_setup_steps owner repo tech_stack repo_data contents
      = clone_step owner repo :: rest
    ∧ title (clone_step owner repo) = "📥 Clone the Repository"
    ∧ commands (clone_step owner repo)
      = [ "git clone https://github.com/" +:+ owner +:+ "/" +:+ repo +:+ ".git";
          "cd " +:+ repo ]
    ∧ length (commands (clone_step owner repo)) = 2%nat.
Proof. unfold generate_setup_steps. simpl. eexists. repeat split. Qed.

(** ** The classifier *)

Lemma list_of_set_iff (s : gset string) (l : list string) :
  Py.list_of_set s l ↔ NoDup l ∧ ∀ x, x ∈ l ↔ x ∈ s.
Proof.
  unfold Py.list_of_set. split.
  - intros E. split.
    + rewrite E. apply NoDup_elements.
    + intros x. rewrite E. apply elem_of_elements.
  - intros [Hnd Hin]. apply NoDup_Permutation; [done | apply NoDup_elements |].
    intros x. rewrite Hin. symmetry. apply elem_of_elements.
Qed.

Lemma foldl_add_if_matched (files : list string) (entries : list (string * list string))
    (acc : gset string) (t : string) :
  t ∈ foldl (add_if_matched files) acc entries ↔
  t ∈ acc ∨ ∃ patterns, (t, patterns) ∈ entries ∧ any_pattern files patterns = true.
Proof.
  revert acc. induction entries as [|[tech ps] entries IH]; intros acc; simpl.
  - split; [by left |]. intros [H | (ps & H & _)]; [done | by apply elem_of_nil in H].
  - rewrite IH. unfold add_if_matched. simpl. split.
    + intros [H | (ps' & H & Hm)].
      * destruct (any_pattern files ps) eqn:E; [| by left].
        apply elem_of_union in H as [H | H]; [by left |].
        apply elem_of_singleton in H as ->. right. exists ps. split; [left | done].
      * right. exists ps'. split; [by right | done].
    + intros [H | (ps' & H & Hm)].
      * left. destruct (any_pattern files ps); [apply elem_of_union; by left | done].
      * apply elem_of_cons in H as [H | H].
        -- injection H as -> ->. left. rewrite Hm. apply elem_of_union. right.
           by apply elem_of_singleton.
        -- right. by exists ps'.
Qed.


Lemma language_tag_elem (repo_data : repo_info) (t : string) :
  t ∈ language_tag repo_data ↔ language repo_data = Some t ∧ t ≠ "".
Proof.
  unfold language_tag. destruct (language repo_data) as [l|].
  - destruct l as [|c l]; simpl.
    + split; [intros H; by apply not_elem_of_empty in H |].
      intros [E H]. injection E as <-. done.
    + rewrite elem_of_singleton. split.
      * intros ->. done.
      * intros [E _]. by injection E.
  - split; [intros H; by apply not_elem_of_empty in H | intros [E _]; discriminate E].
Qed.

(** The tags of the classifier: the language value when it is there and
    not empty, and the catalog tags with a matching pattern. *)
Lemma tech_stack_elem (contents : list item) (repo_data : repo_info) (t : string) :
  t ∈ tech_stack contents repo_data ↔
  (language repo_data = Some t ∧ t ≠ "")
  ∨ ∃ patterns, (t, patterns) ∈ tech_patterns
                ∧ any_pattern (files_of contents) patterns = true.
Proof.
  unfold tech_stack. cbv zeta. rewrite foldl_add_if_matched.
  by rewrite language_tag_elem.
Qed.





(** ** Files and directories *)

Lemma files_of_files_only (contents : list item) :
  files_of (files_only contents) = files_of contents.
Proof.
  unfold files_of, files_only. f_equal.
  induction contents as [|it contents IH]; [reflexivity |].
  rewrite !filter_cons. destruct (decide (type it = "file")) as [E | E].
  - rewrite filter_cons. destruct (decide (type it = "file")); [| done]. by rewrite IH.
  - exact IH.
Qed.

(** ** The environment-configuration step *)

Lemma nonempty_filter {A} (p : A → bool) (l : list A) :
  nonempty (List.filter p l) = true ↔ ∃ x, x ∈ l ∧ p x = true.
Proof.
  induction l as [|a l IH]; simpl.
  - split; [done | intros (x & H & _); by apply elem_of_nil in H].
  - destruct (p a) eqn:E; simpl.
    + split; [intros _; exists a; split; [left | done] | done].
    + rewrite IH. split.
      * intros (x & H & Hp). exists x. split; [by right | done].
      * intros (x & H & Hp). apply elem_of_cons in H as [-> | H]; [congruence |].
        by exists x.
Qed.

Lemma env_files_nonempty (contents : list item) :
  nonempty (env_files (files_of contents)) = true ↔ has_env_file contents.
Proof.
  unfold env_files, has_env_file. rewrite nonempty_filter. split.
  - intros (f & Hf & Hp). apply files_of_elem in Hf as (it & Hin & Ht & <-).
    apply orb_true_iff in Hp. by exists it.
  - intros (it & Hin & Ht & Hp). exists (Py.lower (name it)). split.
    + apply files_of_elem. by exists it.
    + by apply orb_true_iff.
Qed.

Lemma python_steps_not_env owner repo contents :
  Forall not_env (generate_python_steps owner repo contents).
Proof. repeat constructor; discriminate. Qed.

Lemma node_steps_not_env owner repo contents :
  Forall not_env (generate_node_steps owner repo contents).
Proof.
  unfold generate_node_steps. cbv zeta.
  repeat case_match; simplify_eq; repeat constructor; discriminate.
Qed.

Lemma java_steps_not_env contents : Forall not_env (generate_java_steps contents).
Proof.
  unfold generate_java_steps. cbv zeta.
  repeat case_match; repeat constructor; discriminate.
Qed.

(** The plan is a run of steps none of which is titled as the
    environment-configuration step, followed by that step or by nothing. *)
Lemma plan_split (owner repo : string) (tech_stack : list string)
    (repo_data : repo_info) (contents : list item) :
  ∃ pre : list step,
    generate_setup_steps owner repo tech_stack repo_data contents
      = (pre ++ if nonempty (env_files (files_of contents)) then [env_step] else [])%list
    ∧ Forall not_env pre.
Proof.
  unfold generate_setup_steps, generate_run_steps. cbv zeta.
  rewrite !app_assoc. eexists. split; [reflexivity |].
  repeat apply Forall_app_2.
  - repeat constructor; discriminate.
  - case_match; [apply python_steps_not_env | constructor].
  - case_match; [apply node_steps_not_env | constructor].
  - case_match; repeat constructor; discriminate.
  - case_match; [apply java_steps_not_env | constructor].
  - case_match; repeat constructor; discriminate.
Qed.

(** C7. The plan has an Environment Configuration step exactly when some
    file of the manifest has ".env" or "config" in its lowercase name;
    the step is then the last one, with its three fixed commands, and
    the tags play no part in the condition. *)
Theorem env_step_iff_env_file (owner repo : string) (tech_stack : list string)
    (repo_data : repo_info) (contents : list item) :
  let plan := generate_setup_steps owner repo tech_stack repo_data contents in
  ((∃ s, s ∈ plan ∧ title s = "⚙️ Environment Configuration") ↔
     ∃ it, it ∈ contents ∧ type it = "file" ∧
           (substring ".env" (Py.lower (name it)) ∨ substring "config" (Py.lower (name it))))
  ∧ (env_step ∈ plan ↔ has_env_file contents)
  ∧ (has_env_file contents → last plan = Some env_step)
  ∧ commands env_step = [ "# Copy example environment file (if exists)";
                          "cp .env.example .env";
                          "# Edit .env file with your configurations" ].
Proof.
  cbv zeta.
  destruct (plan_split owner repo tech_stack repo_data contents) as (pre & -> & Hpre).
  pose proof (env_files_nonempty contents) as Henv.
  assert (Hsub : has_env_file contents ↔
            ∃ it, it ∈ contents ∧ type it = "file" ∧
              (substring ".env" (Py.lower (name it))
               ∨ substring "config" (Py.lower (name it)))).
  { unfold has_env_file. split; intros (it & Hin & Ht & Hp); exists it;
      (split; [done |]); (split; [done |]);
      destruct Hp as [Hp | Hp]; [left | right | left | right]; by apply contains_spec. }
  rewrite <- Hsub. rewrite Forall_forall in Hpre.
  destruct (nonempty (env_files (files_of contents))).
  - assert (Hyes : has_env_file contents) by by apply Henv.
    repeat split; try done.
    + intros _. exists env_step. split; [| done]. apply elem_of_app. right. left.
    + intros _. apply elem_of_app. right. left.
    + intros _. apply last_snoc.
  - assert (Hno : ¬ has_env_file contents) by (intros H; by apply Henv in H).
    rewrite app_nil_r. repeat split; try done.
    + intros (s & Hin & Ht). by destruct (Hpre s Hin).
    + intros Hin. by destruct (Hpre env_step Hin).
Qed.

Lemma env_step_iff_env_file_witness :
  has_env_file [Item ".env.sample" "file"]
  ∧ last (generate_setup_steps "octocat" "demo" [] (RepoInfo None) [Item ".env.sample" "file"])
    = Some env_step
  ∧ last (generate_setup_steps "octocat" "demo" ["Go"] (RepoInfo (Some "Go"))
            [Item "go.mod" "file"; Item "App.Config.JSON" "file"])
    = Some env_step.
Proof.
  assert (H1 : has_env_file [Item ".env.sample" "file"]).
  { exists (Item ".env.sample" "file"). split; [left |]. split; [reflexivity |].
    left. reflexivity. }
  assert (H2 : has_env_file [Item "go.mod" "file"; Item "App.Config.JSON" "file"]).
  { exists (Item "App.Config.JSON" "file"). split; [right; left |].
    split; [reflexivity |]. right. reflexivity. }
  split; [exact H1 |]. split.
  - exact (proj1 (proj2 (proj2 (env_step_iff_env_file "octocat" "demo" [] (RepoInfo None)
                                  [Item ".env.sample" "file"]))) H1).
  - exact (proj1 (proj2 (proj2 (env_step_iff_env_file "octocat" "demo" ["Go"]
                                  (RepoInfo (Some "Go"))
                                  [Item "go.mod" "file"; Item "App.Config.JSON" "file"]))) H2).
Defined.

(** ** Degenerate inputs *)

(** C8. For the empty manifest and metadata without a language the tag
    set is empty, the only list the classifier can return is the empty
    one (and it does return it), and the plan is the Clone step alone. *)
Theorem empty_input_plan (owner repo : string) :
  tech_stack [] (RepoInfo None) = ∅
  ∧ detect_technologies [] (RepoInfo None) []
  ∧ (∀ l, detect_technologies [] (RepoInfo None) l ↔ l = [])
  ∧ generate_setup_steps owner repo [] (RepoInfo None) [] = [clone_step owner repo]
  ∧ length (generate_setup_steps owner repo [] (RepoInfo None) []) = 1%nat.
Proof.
  assert (E : tech_stack [] (RepoInfo None) = ∅) by (vm_compute; reflexivity).
  assert (Hl : ∀ l, detect_technologies [] (RepoInfo None) l ↔ l = []).
  { intros l. unfold detect_technologies, Py.list_of_set. rewrite E, elements_empty.
    split; [apply Permutation_nil_r | by intros ->]. }
  split; [exact E |]. split; [by apply Hl |]. split; [exact Hl |].
  split; reflexivity.
Qed.

(** C9. Entries that are not files have no influence: the classifier,
    each generator, the resolver and the synthesizer give the same result
    on a manifest and on its file-only restriction. A directory named
    ".streamlit" or "config" triggers nothing. *)
Theorem directories_are_ignored (owner repo : string) (tags : list string)
    (repo_data : repo_info) (contents : list item) :
  tech_stack (files_only contents) repo_data
    = tech_stack contents repo_data
  ∧ (∀ l, detect_technologies (files_only contents) repo_data l
          ↔ detect_technologies contents repo_data l)
  ∧ generate_python_steps owner repo (files_only contents)
    = generate_python_steps owner repo contents
  ∧ generate_node_steps owner repo (files_only contents)
    = generate_node_steps owner repo contents
  ∧ generate_java_steps (files_only contents) = generate_java_steps contents
  ∧ generate_run_steps tags (files_only contents) owner repo
    = generate_run_steps tags contents owner repo
  ∧ generate_setup_steps owner repo tags repo_data (files_only contents)
    = generate_setup_steps owner repo tags repo_data contents
  ∧ tech_stack [Item ".streamlit" "dir"; Item "config" "dir"] (RepoInfo None) = ∅
  ∧ generate_setup_steps owner repo [] (RepoInfo None)
      [Item ".streamlit" "dir"; Item "config" "dir"] = [clone_step owner repo].
Proof.
  assert (Ets : tech_stack (files_only contents) repo_data
                = tech_stack contents repo_data).
  { unfold tech_stack. by rewrite files_of_files_only. }
  split; [exact Ets |]. split.
  { intros l. unfold detect_technologies. by rewrite Ets. }
  unfold generate_setup_steps, generate_python_steps, generate_node_steps,
    generate_java_steps, generate_run_steps.
  rewrite files_of_files_only.
  repeat split; vm_compute; reflexivity.
Qed.

(** ** Parsing the repository URL *)

Lemma not_substring (p s : string) : Py.contains p s = false → ¬ substring p s.
Proof. intros E H. apply contains_spec in H. congruence. Qed.

Lemma contains_false (p s : string) : ¬ substring p s → Py.contains p s = false.
Proof.
  intros H. destruct (Py.contains p s) eqn:E; [| done].
  by apply contains_spec in E.
Qed.

Lemma substring_tail (p : string) (c : ascii) (s : string) :
  substring p s → substring p (String c s).
Proof. intros (pre & post & ->). by exists (String c pre), post. Qed.

Lemma substring_head (p : string) (c : ascii) (s : string) :
  Py.startswith p (String c s) = true → substring p (String c s).
Proof. intros H. apply startswith_spec in H as [post ->]. by exists "", post. Qed.

Lemma startswith_cons (a : ascii) (p : string) (b : ascii) (s : string) :
  Py.startswith (String a p) (String b s)
  = if Ascii.eqb a b then Py.startswith p s else false.
Proof. reflexivity. Qed.

Lemma contains_cons (p : string) (c : ascii) (s : string) :
  Py.contains p (String c s) = Py.startswith p (String c s) || Py.contains p s.
Proof. reflexivity. Qed.

(** A string without '/' is consumed whole by the greedy run, which
    stops at the end of the string or in front of a '/'. *)
Lemma span_not_slash_app (a tail : string) :
  ¬ substring "/" a →
  tail = "" ∨ (∃ r, tail = String "/" r) →
  Py.span_not_slash (a +:+ tail) = (a, tail).
Proof.
  intros Ha Ht. induction a as [|c a IH]; simpl.
  - destruct Ht as [-> | [r ->]]; reflexivity.
  - destruct (Ascii.eqb c "/") eqn:E.
    + apply Ascii.eqb_eq in E as ->. destruct Ha. by exists "", a.
    + rewrite IH; [reflexivity |]. intros H. by apply Ha, substring_tail.
Qed.

Lemma span_not_slash_run (s : string) :
  ¬ substring "/" (Py.span_not_slash s).1.
Proof.
  induction s as [|c s IH]; simpl.
  - by apply not_substring.
  - destruct (Ascii.eqb c "/") eqn:E; simpl; [by apply not_substring |].
    destruct (Py.span_not_slash s) as [run rest]. simpl in *.
    apply not_substring.
    rewrite contains_cons, startswith_cons, (Ascii.eqb_sym "/" c), E.
    by apply contains_false.
Qed.

Lemma span_not_slash_eq (s : string) :
  s = (Py.span_not_slash s).1 +:+ (Py.span_not_slash s).2.
Proof.
  induction s as [|c s IH]; simpl; [reflexivity |].
  destruct (Ascii.eqb c "/"); [reflexivity |].
  destruct (Py.span_not_slash s) as [run rest]. simpl in *.
  exact (f_equal (String c) IH).
Qed.

Lemma strip_prefix_spec (p s r : string) :
  Py.strip_prefix p s = Some r ↔ s = p +:+ r.
Proof.
  revert s. induction p as [|a p IH]; intros s; simpl.
  - split; [by intros [= ->] | by intros ->].
  - destruct s as [|b s]; [split; discriminate |].
    destruct (Ascii.eqb a b) eqn:E.
    + apply Ascii.eqb_eq in E as ->. rewrite IH. split; [by intros -> | by intros [= ->]].
    + apply Ascii.eqb_neq in E. split; [discriminate | intros [= ? ?]; congruence].
Qed.

Lemma append_assoc (a b c : string) : (a +:+ b) +:+ c = a +:+ (b +:+ c).
Proof. induction a as [|x a IH]; [reflexivity |]. exact (f_equal (String x) IH). Qed.

Lemma append_nil_r (a : string) : a +:+ "" = a.
Proof. induction a as [|x a IH]; [reflexivity |]. exact (f_equal (String x) IH). Qed.

Lemma length_append (a b : string) :
  String.length (a +:+ b) = (String.length a + String.length b)%nat.
Proof. induction a as [|x a IH]; [reflexivity |]. exact (f_equal S IH). Qed.

Lemma substring_app_l (p a b : string) : substring p a → substring p (a +:+ b).
Proof.
  intros (pre & post & ->). exists pre, (post +:+ b). by rewrite !append_assoc.
Qed.

Lemma substring_app_r (p a b : string) : substring p b → substring p (a +:+ b).
Proof.
  intros (pre & post & ->). exists (a +:+ pre), post. by rewrite !append_assoc.
Qed.

(** The character [x] occurs in [a +:+ b] exactly when it occurs in one
    of the two. *)
Lemma contains_char_app (x : ascii) (a b : string) :
  Py.contains (String x "") (a +:+ b)
  = Py.contains (String x "") a || Py.contains (String x "") b.
Proof.
  induction a as [|c a IH].
  - destruct b; reflexivity.
  - change (String c a +:+ b) with (String c (a +:+ b)).
    rewrite !contains_cons, !startswith_cons, IH.
    destruct (Ascii.eqb x c); simpl; [reflexivity |].
    destruct a, b; reflexivity.
Qed.

Lemma match_repo_url_shape (owner repo tail : string) :
  owner ≠ "" → repo ≠ "" → ¬ substring "/" owner → ¬ substring "/" repo →
  tail = "" ∨ (∃ r, tail = String "/" r) →
  match_repo_url ("github.com/" +:+ owner +:+ "/" +:+ repo +:+ tail)
  = Some (owner, repo).
Proof.
  intros Ho Hr Hso Hsr Ht. unfold match_repo_url.
  rewrite (proj2 (strip_prefix_spec "github.com/" _ (owner +:+ "/" +:+ repo +:+ tail)) eq_refl).
  rewrite (span_not_slash_app owner ("/" +:+ repo +:+ tail) Hso); [| right; by eexists].
  destruct owner as [|c owner]; [done |].
  change ("/" +:+ repo +:+ tail) with (String "/" (repo +:+ tail)). cbv iota beta.
  rewrite (span_not_slash_app repo tail Hsr Ht).
  by destruct repo.
Qed.

Lemma search_repo_url_cons (c : ascii) (s : string) :
  search_repo_url (String c s)
  = match match_repo_url (String c s) with
    | Some groups => Some groups
    | None => search_repo_url s
    end.
Proof. reflexivity. Qed.

Lemma match_repo_url_first (c : ascii) (s : string) :
  c ≠ "g"%char → match_repo_url (String c s) = None.
Proof.
  intros Hc. unfold match_repo_url.
  change (Py.strip_prefix "github.com/" (String c s))
    with (if Ascii.eqb "g" c then Py.strip_prefix "ithub.com/" s else None).
  destruct (Ascii.eqb "g" c) eqn:E; [| reflexivity].
  apply Ascii.eqb_eq in E. congruence.
Qed.

(** A prefix without the letter g holds no start of a match. *)
Lemma search_repo_url_prefix (prefix s : string) :
  ¬ substring "g" prefix → search_repo_url (prefix +:+ s) = search_repo_url s.
Proof.
  induction prefix as [|c prefix IH]; intros H; [reflexivity |].
  change (String c prefix +:+ s) with (String c (prefix +:+ s)).
  rewrite search_repo_url_cons, match_repo_url_first.
  - apply IH. intros Hs. by apply H, substring_tail.
  - intros ->. apply H. by exists "", prefix.
Qed.

Lemma search_repo_url_here (s : string) (groups : string * string) :
  match_repo_url s = Some groups → search_repo_url s = Some groups.
Proof.
  intros H. destruct s as [|c s]; [vm_compute in H; discriminate H |].
  by rewrite search_repo_url_cons, H.
Qed.

Lemma search_repo_url_git_clone (s : string) :
  search_repo_url ("git clone https://" +:+ s) = search_repo_url s.
Proof. reflexivity. Qed.

(** ** Removing ".git" *)

Lemma replace_from_here (old new : string) (c : ascii) (s : string) :
  Py.replace_from old new 0 (String c s)
  = if Py.startswith old (String c s)
    then new +:+ Py.replace_from old new (String.length old - 1) s
    else String c (Py.replace_from old new 0 s).
Proof. reflexivity. Qed.

Lemma replace_from_skip (old new : string) (k : nat) (c : ascii) (s : string) :
  Py.replace_from old new (S k) (String c s) = Py.replace_from old new k s.
Proof. reflexivity. Qed.

(** Without an occurrence of [old] nothing is replaced. *)
Lemma replace_absent (old new s : string) :
  ¬ substring old s → Py.replace old new s = s.
Proof.
  unfold Py.replace. induction s as [|c s IH]; intros H; [reflexivity |].
  rewrite replace_from_here.
  destruct (Py.startswith old (String c s)) eqn:E.
  - destruct H. by apply substring_head.
  - f_equal. apply IH. intros Hs. by apply H, substring_tail.
Qed.

(** An occurrence of ".git" cannot start inside [a] and run into a
    following ".git". *)
Lemma startswith_git_straddle (a b : string) :
  a ≠ "" →
  Py.startswith ".git" (a +:+ ".git" +:+ b) = Py.startswith ".git" a.
Proof.
  intros Ha. destruct a as [|c1 [|c2 [|c3 [|c4 r]]]]; [done | ..];
    repeat match goal with
    | |- context [String ?c ?s +:+ ?t] => change (String c s +:+ t) with (String c (s +:+ t))
    | |- context ["" +:+ ?t] => change ("" +:+ t) with t
    end;
    rewrite ?startswith_cons;
    repeat match goal with
    | |- context [Ascii.eqb ?x ?y] => destruct (Ascii.eqb x y) eqn:?
    end;
    try reflexivity; by vm_compute in *.
Qed.

(** The first occurrence of ".git" after a run that has none is removed,
    and the removal goes on behind it. *)
Lemma replace_git_app (a b : string) :
  ¬ substring ".git" a →
  Py.replace ".git" "" (a +:+ ".git" +:+ b) = a +:+ Py.replace ".git" "" b.
Proof.
  unfold Py.replace. induction a as [|c a IH]; intros H; [reflexivity |].
  change (String c a +:+ ".git" +:+ b) with (String c (a +:+ ".git" +:+ b)).
  rewrite replace_from_here.
  change (String c (a +:+ ".git" +:+ b)) with (String c a +:+ ".git" +:+ b).
  rewrite startswith_git_straddle by done.
  destruct (Py.startswith ".git" (String c a)) eqn:E.
  - destruct H. by apply substring_head.
  - change (String c a +:+ Py.replace_from ".git" "" 0 b)
      with (String c (a +:+ Py.replace_from ".git" "" 0 b)).
    f_equal. apply IH. intros Hs. by apply H, substring_tail.
Qed.

(** Removing text never makes a string longer. *)
Lemma replace_from_length (old : string) (k : nat) (s : string) :
  (String.length (Py.replace_from old "" k s) ≤ String.length s)%nat.
Proof.
  revert k. induction s as [|c s IH]; intros k; [reflexivity |].
  destruct k as [|k].
  - rewrite replace_from_here. destruct (Py.startswith old (String c s)).
    + change ("" +:+ ?x) with x. simpl. specialize (IH (String.length old - 1)%nat). lia.
    + simpl. specialize (IH 0%nat). lia.
  - rewrite replace_from_skip. simpl. specialize (IH k). lia.
Qed.

(** Removing text brings in no '/'. *)
Lemma replace_from_no_slash (old : string) (k : nat) (s : string) :
  ¬ substring "/" s → ¬ substring "/" (Py.replace_from old "" k s).
Proof.
  revert k. induction s as [|c s IH]; intros k H; [done |].
  assert (Hs : ¬ substring "/" s) by (intros Hs; by apply H, substring_tail).
  destruct k as [|k].
  - rewrite replace_from_here. destruct (Py.startswith old (String c s)).
    + change ("" +:+ ?x) with x. by apply IH.
    + apply not_substring. rewrite contains_cons, startswith_cons.
      apply contains_false in H. rewrite contains_cons, startswith_cons in H.
      destruct (Ascii.eqb "/" c); [by destruct s |].
      apply contains_false. by apply IH.
  - rewrite replace_from_skip. by apply IH.
Qed.

Lemma span_not_slash_rest (s : string) :
  (Py.span_not_slash s).2 = "" ∨ ∃ r, (Py.span_not_slash s).2 = String "/" r.
Proof.
  induction s as [|c s IH]; simpl; [by left |].
  destruct (Ascii.eqb c "/") eqn:E.
  - apply Ascii.eqb_eq in E as ->. right. by exists s.
  - by destruct (Py.span_not_slash s).
Qed.

(** What a match at the head of [t] says about [t]. *)
Lemma match_repo_url_inv (t g1 g2 : string) :
  match_repo_url t = Some (g1, g2) →
  g1 ≠ "" ∧ g2 ≠ "" ∧ ¬ substring "/" g1 ∧ ¬ substring "/" g2
  ∧ ∃ tail, t = "github.com/" +:+ g1 +:+ "/" +:+ g2 +:+ tail
            ∧ (tail = "" ∨ ∃ r, tail = String "/" r).
Proof.
  unfold match_repo_url. destruct (Py.strip_prefix "github.com/" t) as [s1|] eqn:E1; [| done].
  apply strip_prefix_spec in E1 as ->.
  pose proof (span_not_slash_run s1) as Hrun1.
  pose proof (span_not_slash_eq s1) as Heq1.
  pose proof (span_not_slash_rest s1) as Hrest1.
  destruct (Py.span_not_slash s1) as [r1 s2]. simpl in Hrun1, Heq1, Hrest1.
  destruct r1 as [|c1 r1]; [done |]. destruct s2 as [|c2 s3]; [done |].
  destruct Hrest1 as [? | [r [= -> <-]]]; [done |].
  pose proof (span_not_slash_run s3) as Hrun2.
  pose proof (span_not_slash_eq s3) as Heq2.
  pose proof (span_not_slash_rest s3) as Hrest2.
  destruct (Py.span_not_slash s3) as [r2 s4]. simpl in Hrun2, Heq2, Hrest2.
  destruct r2 as [|c3 r2]; [done |].
  intros [= <- <-]. repeat split; try done.
  exists s4. split; [| done]. by rewrite Heq1, Heq2.
Qed.

Lemma search_repo_url_inv (s : string) (groups : string * string) :
  search_repo_url s = Some groups →
  ∃ pre t, s = pre +:+ t ∧ match_repo_url t = Some groups.
Proof.
  induction s as [|c s IH].
  - intros H. exists "", "". split; [done |].
    simpl in H. by destruct (match_repo_url "").
  - rewrite search_repo_url_cons. destruct (match_repo_url (String c s)) eqn:E.
    + intros [= <-]. by exists "", (String c s).
    + intros H. destruct (IH H) as (pre & t & -> & Ht). by exists (String c pre), t.
Qed.

(** The parser on a URL that holds [github.com/OWNER/REPO], the match
    being the first one. *)
Lemma extract_repo_info_shape (prefix owner repo tail : string) :
  ¬ substring "g" prefix →
  owner ≠ "" → repo ≠ "" → ¬ substring "/" owner → ¬ substring "/" repo →
  tail = "" ∨ (∃ r, tail = String "/" r) →
  extract_repo_info (prefix +:+ "github.com/" +:+ owner +:+ "/" +:+ repo +:+ tail)
  = Some (owner, Py.replace ".git" "" repo).
Proof.
  intros Hp Ho Hr Hso Hsr Ht. unfold extract_repo_info.
  rewrite search_repo_url_prefix by done.
  by rewrite (search_repo_url_here _ _ (match_repo_url_shape owner repo tail Ho Hr Hso Hsr Ht)).
Qed.

Lemma no_slash_app (a b : string) :
  ¬ substring "/" a → ¬ substring "/" b → ¬ substring "/" (a +:+ b).
Proof.
  intros Ha Hb. apply not_substring. rewrite contains_char_app.
  by rewrite (contains_false _ _ Ha), (contains_false _ _ Hb).
Qed.

Lemma append_not_nil_r (a b : string) : b ≠ "" → a +:+ b ≠ "".
Proof. intros Hb. destruct a; [done | discriminate]. Qed.

(** X1. Parsing gives back owner and repository for the usual URL forms:
    for a non-empty owner and name without '/', and a name without ".git",
    the URL [github.com/OWNER/NAME], with or without a final ".git", with
    or without a further path, behind any scheme that has no letter g,
    parses to (OWNER, NAME); so does the clone command that the plan's
    first step prints for OWNER and NAME. *)
Theorem extract_repo_info_round_trip (prefix owner name tail : string) :
  ¬ substring "g" prefix →
  owner ≠ "" → ¬ substring "/" owner →
  name ≠ "" → ¬ substring "/" name → ¬ substring ".git" name →
  tail = "" ∨ (∃ r, tail = String "/" r) →
  extract_repo_info (prefix +:+ "github.com/" +:+ owner +:+ "/" +:+ name +:+ tail)
    = Some (owner, name)
  ∧ extract_repo_info (prefix +:+ "github.com/" +:+ owner +:+ "/" +:+ name +:+ ".git" +:+ tail)
    = Some (owner, name)
  ∧ extract_repo_info (hd "" (commands (clone_step owner name))) = Some (owner, name).
Proof.
  intros Hp Ho Hso Hn Hsn Hgit Ht.
  assert (Hdot : ¬ substring "/" ".git") by by apply not_substring.
  assert (Hrep : Py.replace ".git" "" (name +:+ ".git") = name).
  { rewrite <- (append_nil_r (name +:+ ".git")), append_assoc.
    rewrite replace_git_app by done. apply append_nil_r. }
  split; [| split].
  - rewrite extract_repo_info_shape by done. by rewrite replace_absent.
  - rewrite <- (append_assoc name ".git" tail).
    rewrite extract_repo_info_shape;
      [by rewrite Hrep | done | done | by apply append_not_nil_r | done
      | by apply no_slash_app | done].
  - change (hd "" (commands (clone_step owner name)))
      with ("git clone https://" +:+ "github.com/" +:+ owner +:+ "/" +:+ name +:+ ".git").
    unfold extract_repo_info. rewrite search_repo_url_git_clone.
    rewrite <- (append_nil_r (name +:+ ".git")), append_assoc.
    rewrite <- (append_assoc name ".git" "").
    rewrite (search_repo_url_here _ _
               (match_repo_url_shape owner (name +:+ ".git") "" Ho
                  (append_not_nil_r name ".git" ltac:(done)) Hso
                  (no_slash_app name ".git" Hsn Hdot) (or_introl eq_refl))).
    by rewrite Hrep.
Qed.

Lemma extract_repo_info_round_trip_witness :
  extract_repo_info ("https://" +:+ "github.com/" +:+ "octocat" +:+ "/" +:+ "Hello-World"
                       +:+ "/tree/main")
  = Some ("octocat", "Hello-World").
Proof.
  apply (extract_repo_info_round_trip "https://" "octocat" "Hello-World" "/tree/main");
    try (apply not_substring; reflexivity); try discriminate.
  right. by eexists.
Defined.

(** X2. Every occurrence of ".git" in the repository part is removed, not
    only a final one: for a name [a.gitb] the parser returns [a] followed
    by [b] with its own occurrences removed, which is shorter than the
    name and so never the name itself (my.github.io comes back as
    myhub.io). *)
Theorem extract_repo_info_drops_every_git (prefix owner a b tail : string) :
  ¬ substring "g" prefix →
  owner ≠ "" → ¬ substring "/" owner →
  ¬ substring "/" a → ¬ substring "/" b → ¬ substring ".git" a →
  tail = "" ∨ (∃ r, tail = String "/" r) →
  extract_repo_info (prefix +:+ "github.com/" +:+ owner +:+ "/"
                       +:+ (a +:+ ".git" +:+ b) +:+ tail)
    = Some (owner, a +:+ Py.replace ".git" "" b)
  ∧ (String.length (a +:+ Py.replace ".git" "" b) + 4
     ≤ String.length (a +:+ ".git" +:+ b))%nat
  ∧ a +:+ Py.replace ".git" "" b ≠ a +:+ ".git" +:+ b.
Proof.
  intros Hp Ho Hso Ha Hb Hgit Ht.
  assert (Hdot : ¬ substring "/" ".git") by by apply not_substring.
  assert (Hlen : (String.length (a +:+ Py.replace ".git" "" b) + 4
                  ≤ String.length (a +:+ ".git" +:+ b))%nat).
  { rewrite !length_append. pose proof (replace_from_length ".git" 0 b) as Hl.
    unfold Py.replace. simpl. lia. }
  split; [| split; [exact Hlen |]].
  - rewrite extract_repo_info_shape;
      [by rewrite replace_git_app | done | done | | done | | done].
    + apply append_not_nil_r. discriminate.
    + apply no_slash_app; [done |]. by apply no_slash_app.
  - intros E. rewrite E in Hlen. lia.
Qed.

Lemma extract_repo_info_drops_every_git_witness :
  extract_repo_info ("https://" +:+ "github.com/" +:+ "octocat" +:+ "/"
                       +:+ ("my" +:+ ".git" +:+ "hub.io") +:+ "")
  = Some ("octocat", "myhub.io").
Proof.
  apply (extract_repo_info_drops_every_git "https://" "octocat" "my" "hub.io" "");
    try (apply not_substring; reflexivity); try discriminate.
  by left.
Defined.

(** X3. Whatever the parser returns is usable in a path: the owner is not
    empty, neither part holds a '/', and the URL has the shape
    [... github.com/OWNER/NAME ...] with the returned name being NAME
    without its ".git" occurrences. In particular a URL that parses
    contains "github.com", so the check that [main] makes first is implied
    by the parse. *)
Theorem extract_repo_info_sound (github_url owner repo : string) :
  extract_repo_info github_url = Some (owner, repo) →
  owner ≠ "" ∧ ¬ substring "/" owner ∧ ¬ substring "/" repo
  ∧ Py.contains "github.com" github_url = true
  ∧ ∃ pre name tail,
      github_url = pre +:+ "github.com/" +:+ owner +:+ "/" +:+ name +:+ tail
      ∧ name ≠ "" ∧ ¬ substring "/" name
      ∧ repo = Py.replace ".git" "" name
      ∧ (tail = "" ∨ ∃ r, tail = String "/" r).
Proof.
  unfold extract_repo_info.
  destruct (search_repo_url github_url) as [[g1 g2]|] eqn:E; [| done].
  intros [= <- <-].
  apply search_repo_url_inv in E as (pre & t & -> & Hm).
  apply match_repo_url_inv in Hm as (H1 & H2 & Hs1 & Hs2 & tail & -> & Ht).
  split; [done |]. split; [done |].
  split; [by apply replace_from_no_slash |]. split.
  - apply contains_spec. by exists pre, ("/" +:+ g1 +:+ "/" +:+ g2 +:+ tail).
  - by exists pre, g2, tail.
Qed.

Lemma extract_repo_info_sound_witness :
  Py.contains "github.com" "http://www.github.com/rocq-prover/rocq.git/" = true.
Proof.
  apply (extract_repo_info_sound "http://www.github.com/rocq-prover/rocq.git/"
           "rocq-prover" "rocq").
  reflexivity.
Defined.

(** ** URLs without a repository part *)

Lemma inner_slashes_cons (c : ascii) (s : string) :
  inner_slashes (String c s)
  = ((if Ascii.eqb c "/" then match s with EmptyString => 0 | _ => 1 end else 0)
     + inner_slashes s)%nat.
Proof. reflexivity. Qed.

Lemma inner_slashes_app_r (a b : string) :
  (inner_slashes b ≤ inner_slashes (a +:+ b))%nat.
Proof.
  induction a as [|c a IH]; [reflexivity |].
  change (String c a +:+ b) with (String c (a +:+ b)).
  rewrite inner_slashes_cons. lia.
Qed.

Lemma inner_slashes_no_slash (w : string) :
  ¬ substring "/" w →
  inner_slashes w = 0%nat ∧ inner_slashes (w +:+ "/") = 0%nat.
Proof.
  induction w as [|c w IH]; intros H; [by split |].
  assert (Hw : ¬ substring "/" w) by (intros Hs; by apply H, substring_tail).
  destruct (IH Hw) as [IH1 IH2].
  assert (Hc : Ascii.eqb c "/" = false).
  { apply Ascii.eqb_neq. intros ->. apply H. by exists "", w. }
  change (String c w +:+ "/") with (String c (w +:+ "/")).
  rewrite !inner_slashes_cons, Hc, IH1, IH2. by split.
Qed.

(** A match needs two '/' that are followed by something: the one of
    [github.com/] and the one between the two groups. *)
Lemma match_repo_url_inner_slashes (t : string) (groups : string * string) :
  match_repo_url t = Some groups → (2 ≤ inner_slashes t)%nat.
Proof.
  destruct groups as [g1 g2]. intros H.
  apply match_repo_url_inv in H as (H1 & H2 & _ & _ & tail & -> & _).
  destruct g1 as [|c1 g1]; [done |]. destruct g2 as [|c2 g2]; [done |].
  change ("github.com/" +:+ String c1 g1 +:+ "/" +:+ String c2 g2 +:+ tail)
    with ("github.com" +:+ String "/" (String c1 (g1 +:+ String "/" (String c2 (g2 +:+ tail))))).
  etrans; [| apply inner_slashes_app_r].
  rewrite inner_slashes_cons. change (Ascii.eqb "/" "/") with true. cbv iota.
  pose proof (inner_slashes_app_r (String c1 g1) (String "/" (String c2 (g2 +:+ tail)))) as Hle.
  rewrite (inner_slashes_cons "/") in Hle. change (Ascii.eqb "/" "/") with true in Hle.
  cbv iota in Hle.
  change (String c1 g1 +:+ String "/" (String c2 (g2 +:+ tail)))
    with (String c1 (g1 +:+ String "/" (String c2 (g2 +:+ tail)))) in Hle.
  lia.
Qed.

Lemma search_repo_url_inner_slashes (s : string) (groups : string * string) :
  search_repo_url s = Some groups → (2 ≤ inner_slashes s)%nat.
Proof.
  intros H. apply search_repo_url_inv in H as (pre & t & -> & Hm).
  etrans; [by eapply match_repo_url_inner_slashes | apply inner_slashes_app_r].
Qed.

(** X4. A URL that stops after the owner, with or without a final '/',
    does not parse ([main] then reports that the URL could not be
    parsed): the pattern needs a non-empty repository part. *)
Theorem extract_repo_info_owner_only (prefix owner : string) :
  ¬ substring "g" prefix → ¬ substring "/" owner →
  extract_repo_info (prefix +:+ "github.com/" +:+ owner) = None
  ∧ extract_repo_info (prefix +:+ "github.com/" +:+ owner +:+ "/") = None.
Proof.
  intros Hp Ho. destruct (inner_slashes_no_slash owner Ho) as [H1 H2].
  unfold extract_repo_info.
  rewrite (search_repo_url_prefix prefix ("github.com/" +:+ owner) Hp),
    (search_repo_url_prefix prefix ("github.com/" +:+ owner +:+ "/") Hp).
  split.
  - destruct (search_repo_url ("github.com/" +:+ owner)) as [groups|] eqn:E; [| done].
    apply search_repo_url_inner_slashes in E.
    change ("github.com/" +:+ owner)
      with (String "g" (String "i" (String "t" (String "h" (String "u" (String "b"
             (String "." (String "c" (String "o" (String "m" (String "/" owner)))))))))))
      in E.
    rewrite !inner_slashes_cons, H1 in E. simpl in E. destruct owner; simpl in E; lia.
  - destruct (search_repo_url ("github.com/" +:+ owner +:+ "/")) as [groups|] eqn:E; [| done].
    apply search_repo_url_inner_slashes in E.
    change ("github.com/" +:+ owner +:+ "/")
      with (String "g" (String "i" (String "t" (String "h" (String "u" (String "b"
             (String "." (String "c" (String "o" (String "m"
               (String "/" (owner +:+ "/"))))))))))))
      in E.
    rewrite !inner_slashes_cons, H2 in E. simpl in E.
    destruct (owner +:+ "/"); simpl in E; lia.
Qed.

Lemma extract_repo_info_owner_only_witness :
  extract_repo_info ("https://" +:+ "github.com/" +:+ "octocat") = None
  ∧ extract_repo_info ("https://" +:+ "github.com/" +:+ "octocat" +:+ "/") = None.
Proof.
  apply (extract_repo_info_owner_only "https://" "octocat");
    apply not_substring; reflexivity.
Defined.

(** ** The Node.js generator *)

(** X5. The Node.js generator always gives one step with one command:
    "yarn install" when yarn.lock is among the files, "npm install"
    otherwise, whether or not package-lock.json is there; description and
    last note name the same package manager. *)
Theorem node_generator_step (owner repo : string) (contents : list item) :
  ∃ s, generate_node_steps owner repo contents = [s]
    ∧ title s = "📦 Install Node.js Dependencies"
    ∧ length (commands s) = 1%nat
    ∧ ("yarn.lock" ∈ files_of contents →
         commands s = ["yarn install"]
         ∧ description s = "Install packages using yarn"
         ∧ last (notes s) = Some "This project uses yarn as package manager")
    ∧ ("yarn.lock" ∉ files_of contents →
         commands s = ["npm install"]
         ∧ description s = "Install packages using npm"
         ∧ last (notes s) = Some "This project uses npm as package manager").
Proof.
  unfold generate_node_steps. cbv zeta.
  destruct (Py.mem "yarn.lock" (files_of contents)) eqn:Ey.
  - apply mem_true in Ey. eexists. repeat split; try reflexivity; done.
  - apply mem_false in Ey.
    destruct (Py.mem "package-lock.json" (files_of contents));
      eexists; repeat split; try reflexivity; done.
Qed.

Lemma node_generator_step_witness :
  map commands (generate_node_steps "o" "r"
                  [Item "package-lock.json" "file"; Item "Yarn.lock" "file"])
  = [["yarn install"]].
Proof.
  destruct (node_generator_step "o" "r"
              [Item "package-lock.json" "file"; Item "Yarn.lock" "file"])
    as (s & E & _ & _ & Hyarn & _).
  rewrite E. simpl. f_equal. apply Hyarn. by_eval.
Defined.

(** ** The shape of the plan *)

Lemma run_commands_nonempty (tags files : list string) :
  nonempty (run_commands tags files)
  = match first_branch tags with Some _ => true | None => false end.
Proof.
  unfold first_branch, branches, run_commands. simpl.
  destruct (Py.mem "Streamlit" tags); [by repeat case_match |].
  destruct (Py.mem "Flask" tags); [by repeat case_match |].
  destruct (Py.mem "Django" tags); [done |].
  destruct (Py.mem "FastAPI" tags); [by repeat case_match |].
  destruct (Py.mem "Node.js" tags); [by repeat case_match |].
  destruct (Py.mem "Python" tags); [by repeat case_match | done].
Qed.

(** The titles of the plan, segment by segment. *)
Lemma plan_titles (owner repo : string) (tags : list string)
    (repo_data : repo_info) (contents : list item) :
  map title (generate_setup_steps owner repo tags repo_data contents)
  = (["📥 Clone the Repository"]
    ++ (if Py.mem "Python" tags
        then ["🐍 Set up Python Environment"; "📦 Install Dependencies"] else [])
    ++ (if Py.mem "Node.js" tags then ["📦 Install Node.js Dependencies"] else [])
    ++ (if Py.mem "Docker" tags then ["🐳 Docker Setup (Alternative)"] else [])
    ++ (if Py.mem "Java" tags
        then if Py.mem "pom.xml" (files_of contents) then ["☕ Java Maven Setup"]
             else if existsb (λ f, Py.contains "gradle" f) (files_of contents)
                  then ["☕ Java Gradle Setup"] else []
        else [])
    ++ (if nonempty (run_commands tags (files_of contents))
        then ["🚀 Run the Application"] else [])
    ++ (if nonempty (env_files (files_of contents))
        then ["⚙️ Environment Configuration"] else []))%list.
Proof.
  unfold generate_setup_steps, generate_python_steps, generate_node_steps,
    generate_docker_steps, generate_java_steps, generate_run_steps. cbv zeta.
  destruct (Py.mem "Python" tags), (Py.mem "Node.js" tags), (Py.mem "Docker" tags),
    (Py.mem "Java" tags), (Py.mem "pom.xml" (files_of contents)),
    (existsb (λ f, Py.contains "gradle" f) (files_of contents)),
    (nonempty (run_commands tags (files_of contents))),
    (nonempty (env_files (files_of contents)));
    repeat case_match; reflexivity.
Qed.

Ltac solve_sublist :=
  repeat first [ apply sublist_nil_l | apply sublist_skip | apply sublist_cons ].

(** X6. The steps of a plan come in one fixed order and none comes twice:
    the titles of the plan are a sub-list of the title order (Clone,
    Python environment, Python install, Node install, Docker, Maven,
    Gradle, Run, Environment). A plan has between one and eight steps, and
    eight are reached. *)
Theorem plan_follows_title_order (owner repo : string) (tags : list string)
    (repo_data : repo_info) (contents : list item) :
  let plan := generate_setup_steps owner repo tags repo_data contents in
  map title plan `sublist_of` title_order
  ∧ NoDup (map title plan)
  ∧ (1 ≤ length plan ≤ 8)%nat
  ∧ length (generate_setup_steps owner repo ["Python"; "Node.js"; "Docker"; "Java"]
              repo_data [Item "pom.xml" "file"; Item ".env" "file"]) = 8%nat.
Proof.
  cbv zeta.
  assert (Hsub : map title (generate_setup_steps owner repo tags repo_data contents)
                 `sublist_of` title_order).
  { rewrite plan_titles. unfold title_order.
    destruct (Py.mem "Python" tags), (Py.mem "Node.js" tags), (Py.mem "Docker" tags),
      (Py.mem "Java" tags), (Py.mem "pom.xml" (files_of contents)),
      (existsb (λ f, Py.contains "gradle" f) (files_of contents)),
      (nonempty (run_commands tags (files_of contents))),
      (nonempty (env_files (files_of contents))); simpl; solve_sublist. }
  split; [exact Hsub |]. split; [| split; [| reflexivity]].
  - apply (sublist_NoDup _ title_order); [| exact Hsub].
    apply (bool_decide_unpack _). vm_compute. exact I.
  - rewrite <- (length_map title), plan_titles.
    destruct (Py.mem "Python" tags), (Py.mem "Node.js" tags), (Py.mem "Docker" tags),
      (Py.mem "Java" tags), (Py.mem "pom.xml" (files_of contents)),
      (existsb (λ f, Py.contains "gradle" f) (files_of contents)),
      (nonempty (run_commands tags (files_of contents))),
      (nonempty (env_files (files_of contents))); simpl; lia.
Qed.

Lemma iff_by_bool (P Q : Prop) `{Decision P} (b : bool) :
  (Q ↔ b = true) → bool_decide P = b → (P ↔ Q).
Proof.
  intros HQ Hb. rewrite HQ, <- Hb. symmetry. apply bool_decide_eq_true.
Qed.

Lemma first_branch_some (tags : list string) :
  (∃ b, b ∈ branches ∧ b ∈ tags)
  ↔ match first_branch tags with Some _ => true | None => false end = true.
Proof.
  unfold first_branch. split.
  - intros (b & Hb & Ht). destruct (List.find _ branches) eqn:E; [done |].
    apply list_elem_of_In in Hb. apply (find_none _ _ E b) in Hb.
    apply mem_true in Ht. congruence.
  - destruct (List.find _ branches) as [b|] eqn:E; [| done]. intros _.
    apply find_some in E as [Hb Ht]. exists b.
    split; [by apply list_elem_of_In | by apply mem_true].
Qed.

Lemma existsb_gradle (files : list string) :
  (∃ f, f ∈ files ∧ substring "gradle" f)
  ↔ existsb (λ f, Py.contains "gradle" f) files = true.
Proof.
  rewrite existsb_exists. split; intros (f & Hf & Hg); exists f;
    (split; [by apply list_elem_of_In | by apply contains_spec]).
Qed.

Ltac plan_cases tags contents :=
  destruct (Py.mem "Python" tags), (Py.mem "Node.js" tags), (Py.mem "Docker" tags),
    (Py.mem "Java" tags), (Py.mem "pom.xml" (files_of contents)),
    (existsb (λ f, Py.contains "gradle" f) (files_of contents)),
    (nonempty (run_commands tags (files_of contents))),
    (nonempty (env_files (files_of contents))).

(** X7. Which steps a plan holds, by title: the two Python steps exactly
    when the Python tag is present, the Node.js step with the Node.js tag,
    the Docker step with the Docker tag whatever the manifest holds, the
    Maven step with the Java tag and a file pom.xml, the Gradle step with
    the Java tag, no pom.xml and a file name holding "gradle", and the Run
    step exactly when one of the six resolver tags is present. *)
Theorem plan_step_gating (owner repo : string) (tags : list string)
    (repo_data : repo_info) (contents : list item) :
  let titles := map title (generate_setup_steps owner repo tags repo_data contents) in
  let files := files_of contents in
  ("🐍 Set up Python Environment" ∈ titles ↔ "Python" ∈ tags)
  ∧ ("📦 Install Dependencies" ∈ titles ↔ "Python" ∈ tags)
  ∧ ("📦 Install Node.js Dependencies" ∈ titles ↔ "Node.js" ∈ tags)
  ∧ ("🐳 Docker Setup (Alternative)" ∈ titles ↔ "Docker" ∈ tags)
  ∧ ("☕ Java Maven Setup" ∈ titles ↔ "Java" ∈ tags ∧ "pom.xml" ∈ files)
  ∧ ("☕ Java Gradle Setup" ∈ titles ↔
       "Java" ∈ tags ∧ ("pom.xml" ∉ files) ∧ ∃ f, f ∈ files ∧ substring "gradle" f)
  ∧ ("🚀 Run the Application" ∈ titles ↔ ∃ b, b ∈ branches ∧ b ∈ tags).
Proof.
  cbv zeta. rewrite plan_titles. split_and!.
  - apply (iff_by_bool _ _ (Py.mem "Python" tags)); [symmetry; apply mem_true |].
    plan_cases tags contents; reflexivity.
  - apply (iff_by_bool _ _ (Py.mem "Python" tags)); [symmetry; apply mem_true |].
    plan_cases tags contents; reflexivity.
  - apply (iff_by_bool _ _ (Py.mem "Node.js" tags)); [symmetry; apply mem_true |].
    plan_cases tags contents; reflexivity.
  - apply (iff_by_bool _ _ (Py.mem "Docker" tags)); [symmetry; apply mem_true |].
    plan_cases tags contents; reflexivity.
  - apply (iff_by_bool _ _ (Py.mem "Java" tags && Py.mem "pom.xml" (files_of contents))).
    + by rewrite andb_true_iff, !mem_true.
    + plan_cases tags contents; reflexivity.
  - apply (iff_by_bool _ _
             (Py.mem "Java" tags && negb (Py.mem "pom.xml" (files_of contents))
              && existsb (λ f, Py.contains "gradle" f) (files_of contents))).
    + rewrite !andb_true_iff, negb_true_iff, mem_true, mem_false, existsb_gradle. tauto.
    + plan_cases tags contents; reflexivity.
  - rewrite run_commands_nonempty.
    apply (iff_by_bool _ _
             (match first_branch tags with Some _ => true | None => false end));
      [apply first_branch_some |].
    destruct (first_branch tags);
      destruct (Py.mem "Python" tags), (Py.mem "Node.js" tags), (Py.mem "Docker" tags),
        (Py.mem "Java" tags), (Py.mem "pom.xml" (files_of contents)),
        (existsb (λ f, Py.contains "gradle" f) (files_of contents)),
        (nonempty (env_files (files_of contents))); reflexivity.
Qed.

(** ** Every step is complete *)

Lemma install_commands_complete (files : list string) :
  install_commands files ≠ [] ∧ Forall (λ c, c ≠ "") (install_commands files).
Proof.
  unfold install_commands. repeat case_match; (split; [done |]);
    repeat constructor; discriminate.
Qed.

Lemma run_commands_complete (tags files : list string) :
  Forall (λ c, c ≠ "") (run_commands tags files).
Proof.
  unfold run_commands. repeat case_match; simpl; repeat constructor; discriminate.
Qed.

(** X8. Every step of every plan has a title, at least one command, no
    empty command and at least one note, so the presenter's tests for
    empty commands and empty notes never hide anything. *)
Theorem plan_steps_complete (owner repo : string) (tags : list string)
    (repo_data : repo_info) (contents : list item) :
  Forall complete_step (generate_setup_steps owner repo tags repo_data contents).
Proof.
  unfold generate_setup_steps, generate_run_steps. cbv zeta.
  repeat apply Forall_app_2.
  - repeat constructor; discriminate.
  - case_match; [| constructor]. unfold generate_python_steps.
    destruct (install_commands_complete (files_of contents)) as [H1 H2].
    repeat constructor; try discriminate; done.
  - case_match; [| constructor]. unfold generate_node_steps. cbv zeta.
    repeat case_match; simplify_eq; repeat constructor; discriminate.
  - case_match; [| constructor]. repeat constructor; discriminate.
  - case_match; [| constructor]. unfold generate_java_steps. cbv zeta.
    repeat case_match; repeat constructor; discriminate.
  - destruct (nonempty (run_commands tags (files_of contents))) eqn:E; [| constructor].
    constructor; [| constructor]. split; [discriminate |]. split; [| split].
    + simpl. by destruct (run_commands tags (files_of contents)).
    + apply run_commands_complete.
    + discriminate.
  - case_match; repeat constructor; discriminate.
Qed.

(** ** The plan and the order of the tags *)

Lemma mem_ext (x : string) (l1 l2 : list string) :
  (∀ t, t ∈ l1 ↔ t ∈ l2) → Py.mem x l1 = Py.mem x l2.
Proof. intros H. unfold Py.mem. apply bool_decide_ext, H. Qed.

(** X9. The plan depends on the tag list only through the tags in it:
    two lists with the same members give the same plan. So every list the
    classifier can return for given inputs leads to one and the same
    plan, whatever order the set came out in. *)
Theorem plan_ignores_tag_order (owner repo : string) (repo_data : repo_info)
    (contents : list item) :
  (∀ l1 l2 : list string, (∀ t, t ∈ l1 ↔ t ∈ l2) →
     generate_setup_steps owner repo l1 repo_data contents
     = generate_setup_steps owner repo l2 repo_data contents)
  ∧ (∀ l1 l2, detect_technologies contents repo_data l1 →
              detect_technologies contents repo_data l2 →
     generate_setup_steps owner repo l1 repo_data contents
     = generate_setup_steps owner repo l2 repo_data contents).
Proof.
  assert (Hext : ∀ l1 l2 : list string, (∀ t, t ∈ l1 ↔ t ∈ l2) →
            generate_setup_steps owner repo l1 repo_data contents
            = generate_setup_steps owner repo l2 repo_data contents).
  { intros l1 l2 H. unfold generate_setup_steps, generate_run_steps, run_commands.
    by rewrite !(mem_ext _ l1 l2 H). }
  split; [exact Hext |].
  intros l1 l2 H1 H2. apply Hext. intros t.
  apply list_of_set_iff in H1 as [_ H1]. apply list_of_set_iff in H2 as [_ H2].
  by rewrite H1, H2.
Qed.

Lemma plan_ignores_tag_order_witness :
  generate_setup_steps "o" "r" ["React"; "Node.js"] (RepoInfo None) [Item "package.json" "file"]
  = generate_setup_steps "o" "r" ["Node.js"; "React"] (RepoInfo None) [Item "package.json" "file"].
Proof.
  apply (proj1 (plan_ignores_tag_order "o" "r" (RepoInfo None) [Item "package.json" "file"])).
  intros t. rewrite !elem_of_cons. tauto.
Defined.

(** ** Patterns match inside single file names *)

Lemma startswith_nil (s : string) : Py.startswith "" s = true.
Proof. reflexivity. Qed.

Lemma no_space_cons (c : ascii) (p : string) :
  Py.contains " " (String c p) = false →
  Ascii.eqb c " " = false ∧ Py.contains " " p = false.
Proof.
  rewrite contains_cons, startswith_cons, startswith_nil, (Ascii.eqb_sym " " c).
  destruct (Ascii.eqb c " "); [discriminate | done].
Qed.

(** A pattern without a space that starts in [a] cannot run across the
    separator. *)
Lemma startswith_sep (p a b : string) :
  Py.contains " " p = false →
  Py.startswith p (a +:+ " " +:+ b) = Py.startswith p a.
Proof.
  revert a. induction p as [|c p IH]; intros a Hp; [reflexivity |].
  apply no_space_cons in Hp as [Hc Hp].
  destruct a as [|x a].
  - change ("" +:+ " " +:+ b) with (String " " b). rewrite startswith_cons, Hc. reflexivity.
  - change (String x a +:+ " " +:+ b) with (String x (a +:+ " " +:+ b)).
    rewrite !startswith_cons. destruct (Ascii.eqb c x); [by apply IH | reflexivity].
Qed.

Lemma contains_sep (p a b : string) :
  p ≠ "" → Py.contains " " p = false →
  Py.contains p (a +:+ " " +:+ b) = Py.contains p a || Py.contains p b.
Proof.
  intros Hne Hp. induction a as [|x a IH].
  - change ("" +:+ " " +:+ b) with (String " " b).
    destruct p as [|c p]; [done |]. apply no_space_cons in Hp as [Hc _].
    rewrite contains_cons, startswith_cons, Hc. reflexivity.
  - change (String x a +:+ " " +:+ b) with (String x (a +:+ " " +:+ b)).
    rewrite !contains_cons, IH, orb_assoc. f_equal. f_equal.
    change (String x (a +:+ " " +:+ b)) with (String x a +:+ " " +:+ b).
    by apply startswith_sep.
Qed.

(** A non-empty pattern without a space occurs in the space-joined names
    exactly when it occurs in one of them. *)
Lemma contains_join (p : string) (files : list string) :
  p ≠ "" → Py.contains " " p = false →
  Py.contains p (Py.join " " files) = existsb (Py.contains p) files.
Proof.
  intros Hne Hp. induction files as [|f files IH].
  - by destruct p.
  - destruct files as [|f2 files].
    + simpl. by rewrite orb_false_r.
    + change (Py.join " " (f :: f2 :: files))
        with (f +:+ " " +:+ Py.join " " (f2 :: files)).
      rewrite contains_sep, IH by done. reflexivity.
Qed.

Lemma tech_patterns_plain (t : string) (patterns : list string) (p : string) :
  (t, patterns) ∈ tech_patterns → p ∈ patterns →
  p ≠ "" ∧ Py.contains " " p = false.
Proof.
  intros Ht Hp.
  assert (Hall : forallb (λ e : string * list string,
                    forallb (λ q, negb (String.eqb q "") && negb (Py.contains " " q)) e.2)
                   tech_patterns = true) by reflexivity.
  rewrite forallb_forall in Hall. apply list_elem_of_In in Ht.
  specialize (Hall _ Ht). simpl in Hall. rewrite forallb_forall in Hall.
  apply list_elem_of_In in Hp. specialize (Hall _ Hp).
  apply andb_true_iff in Hall as [H1 H2].
  apply negb_true_iff in H1, H2. apply String.eqb_neq in H1. done.
Qed.

Lemma any_pattern_per_file (t : string) (patterns files : list string) :
  (t, patterns) ∈ tech_patterns →
  any_pattern files patterns = true ↔
  ∃ p f, p ∈ patterns ∧ f ∈ files ∧ substring p f.
Proof.
  intros Ht. unfold any_pattern. rewrite existsb_exists. split.
  - intros (p & Hp & Hc). apply list_elem_of_In in Hp.
    destruct (tech_patterns_plain t patterns p Ht Hp) as [Hne Hsp].
    rewrite contains_join in Hc by done. apply existsb_exists in Hc as (f & Hf & Hc).
    exists p, f. split; [done |]. split; [by apply list_elem_of_In | by apply contains_spec].
  - intros (p & f & Hp & Hf & Hc).
    destruct (tech_patterns_plain t patterns p Ht Hp) as [Hne Hsp].
    exists p. split; [by apply list_elem_of_In |].
    rewrite contains_join by done. apply existsb_exists. exists f.
    split; [by apply list_elem_of_In | by apply contains_spec].
Qed.

(** X10. Although the classifier searches the space-joined list of names,
    no catalog pattern holds a space, so a match never runs across two
    names: a catalog tag is detected exactly when one of its patterns
    occurs inside the lowercase name of a single file. *)
Theorem tags_match_single_files (contents : list item) (repo_data : repo_info)
    (t : string) :
  t ∈ tech_stack contents repo_data ↔
  (language repo_data = Some t ∧ t ≠ "")
  ∨ ∃ patterns pattern it,
      (t, patterns) ∈ tech_patterns ∧ pattern ∈ patterns
      ∧ it ∈ contents ∧ type it = "file" ∧ substring pattern (Py.lower (name it)).
Proof.
  rewrite tech_stack_elem. apply or_iff_both; [done |]. split.
  - intros (ps & Ht & Hm). apply (any_pattern_per_file t) in Hm as (p & f & Hp & Hf & Hs); [| done].
    apply files_of_elem in Hf as (it & Hin & Hty & <-). by exists ps, p, it.
  - intros (ps & p & it & Ht & Hp & Hin & Hty & Hs). exists ps. split; [done |].
    apply (any_pattern_per_file t); [done |]. exists p, (Py.lower (name it)).
    split; [done |]. split; [| done]. apply files_of_elem. by exists it.
Qed.

(** ** What the analysis depends on *)

Lemma tech_stack_mono_elem (c1 c2 : list item) (repo_data : repo_info) (t : string) :
  (∀ f, f ∈ files_of c1 → f ∈ files_of c2) →
  t ∈ tech_stack c1 repo_data → t ∈ tech_stack c2 repo_data.
Proof.
  intros Hsub. rewrite !tech_stack_elem. intros [H | (ps & Ht & Hm)]; [by left | right].
  exists ps. split; [done |].
  apply (any_pattern_per_file t) in Hm as (p & f & Hp & Hf & Hs); [| done].
  apply (any_pattern_per_file t); [done |]. exists p, f. auto.
Qed.

Lemma existsb_ext_elem {A} (p : A → bool) (l1 l2 : list A) :
  (∀ x, x ∈ l1 ↔ x ∈ l2) → existsb p l1 = existsb p l2.
Proof.
  intros H. apply eq_true_iff_eq. rewrite !existsb_exists.
  split; intros (x & Hx & Hp); exists x; (split; [| done]);
    apply list_elem_of_In, H, list_elem_of_In, Hx.
Qed.

Lemma nonempty_filter_ext {A} (p : A → bool) (l1 l2 : list A) :
  (∀ x, x ∈ l1 ↔ x ∈ l2) →
  nonempty (List.filter p l1) = nonempty (List.filter p l2).
Proof.
  intros H. apply eq_true_iff_eq. rewrite !nonempty_filter.
  split; intros (x & Hx & Hp); exists x; (split; [by apply H | done]).
Qed.

(** X11. Tags and plan depend on the manifest only through the set of
    lowercase file names: more files never remove a tag, and two listings
    with the same file names, in any order and with any repetition, give
    the same tag set and the same plan. *)
Theorem analysis_depends_on_file_set (owner repo : string) (tags : list string)
    (repo_data : repo_info) (c1 c2 : list item) :
  ((∀ f, f ∈ files_of c1 → f ∈ files_of c2) →
     tech_stack c1 repo_data ⊆ tech_stack c2 repo_data)
  ∧ ((∀ f, f ∈ files_of c1 ↔ f ∈ files_of c2) →
     tech_stack c1 repo_data = tech_stack c2 repo_data
     ∧ generate_setup_steps owner repo tags repo_data c1
       = generate_setup_steps owner repo tags repo_data c2).
Proof.
  split.
  - intros Hsub t. by apply tech_stack_mono_elem.
  - intros Heq. split.
    + apply leibniz_equiv. intros t.
      split; apply tech_stack_mono_elem; intros f; apply Heq.
    + unfold generate_setup_steps, generate_python_steps, generate_node_steps,
        generate_java_steps, generate_run_steps, install_commands, run_commands,
        env_files. cbv zeta.
      rewrite !(mem_ext _ (files_of c1) (files_of c2) Heq).
      rewrite (existsb_ext_elem _ (files_of c1) (files_of c2) Heq).
      by rewrite (nonempty_filter_ext _ (files_of c1) (files_of c2) Heq).
Qed.

Lemma analysis_depends_on_file_set_witness :
  tech_stack [Item "app.py" "file"] (RepoInfo None)
  ⊆ tech_stack [Item "Dockerfile" "file"; Item "APP.py" "file"; Item "app.py" "file"]
      (RepoInfo None).
Proof.
  apply (proj1 (analysis_depends_on_file_set "o" "r" [] (RepoInfo None)
                  [Item "app.py" "file"]
                  [Item "Dockerfile" "file"; Item "APP.py" "file"; Item "app.py" "file"])).
  intros f Hf. apply list_elem_of_singleton in Hf as ->. by_eval.
Defined.

(** ** Consequences of the catalog *)

Lemma substring_trans (a b c : string) : substring a b → substring b c → substring a c.
Proof.
  intros (p1 & q1 & ->) (p2 & q2 & ->). exists (p2 +:+ p1), (q1 +:+ q2).
  by rewrite !append_assoc.
Qed.

Lemma substring_refl (a : string) : substring a a.
Proof. exists "", "". by rewrite append_nil_r. Qed.

Ltac catalog_entry H :=
  unfold tech_patterns in H;
  repeat (apply elem_of_cons in H as [H | H]; [try discriminate H |]);
  [.. | by apply elem_of_nil in H].

(** X12. The React tag comes with every package.json: a file whose
    lowercase name holds "package.json" gives both the Node.js and the
    React tag, and unless the language itself is "React" the React tag is
    never present without the Node.js tag. *)
Theorem react_with_every_package_json (contents : list item) (repo_data : repo_info) :
  ((∃ it, it ∈ contents ∧ type it = "file"
          ∧ substring "package.json" (Py.lower (name it))) →
     "Node.js" ∈ tech_stack contents repo_data
     ∧ "React" ∈ tech_stack contents repo_data)
  ∧ (language repo_data ≠ Some "React" →
     "React" ∈ tech_stack contents repo_data →
     "Node.js" ∈ tech_stack contents repo_data).
Proof.
  assert (Hpkg : (∃ f, f ∈ files_of contents ∧ substring "package.json" f) →
            "Node.js" ∈ tech_stack contents repo_data
            ∧ "React" ∈ tech_stack contents repo_data).
  { intros (f & Hf & Hs). split; apply tech_stack_elem; right.
    - exists ["package.json"; "package-lock.json"; "yarn.lock"]. split; [by_eval |].
      apply (any_pattern_per_file "Node.js"); [by_eval |].
      exists "package.json", f. split; [by_eval | done].
    - exists ["package.json"]. split; [by_eval |].
      apply (any_pattern_per_file "React"); [by_eval |].
      exists "package.json", f. split; [by_eval | done]. }
  split.
  - intros (it & Hin & Hty & Hs). apply Hpkg. exists (Py.lower (name it)).
    split; [| done]. apply files_of_elem. by exists it.
  - intros Hlang H. apply tech_stack_elem in H as [[H _] | (ps & Ht & Hm)]; [done |].
    apply (any_pattern_per_file "React") in Hm as (p & f & Hp & Hf & Hs); [| done].
    apply Hpkg. exists f. split; [done |].
    catalog_entry Ht. injection Ht as ->.
    by apply list_elem_of_singleton in Hp as ->.
Qed.

Lemma react_with_every_package_json_witness :
  "Node.js" ∈ tech_stack [Item "Package.json" "file"] (RepoInfo (Some "TypeScript"))
  ∧ "React" ∈ tech_stack [Item "Package.json" "file"] (RepoInfo (Some "TypeScript")).
Proof.
  apply (proj1 (react_with_every_package_json [Item "Package.json" "file"]
                  (RepoInfo (Some "TypeScript")))).
  exists (Item "Package.json" "file"). split; [left |]. split; [reflexivity |].
  apply contains_spec. reflexivity.
Defined.

(** X13. From listing to run command: when the manifest has a file app.py,
    no file name holds "streamlit" and the language is not "Streamlit",
    every tag list the classifier can return holds Flask and not
    Streamlit, and the run step is Flask's, [export FLASK_APP=app.py] then
    [flask run], whatever other frameworks were detected. *)
Theorem app_py_runs_as_flask (owner repo : string) (repo_data : repo_info)
    (contents : list item) (l : list string) :
  "app.py" ∈ files_of contents →
  (∀ f, f ∈ files_of contents → ¬ substring "streamlit" f) →
  language repo_data ≠ Some "Streamlit" →
  detect_technologies contents repo_data l →
  "Flask" ∈ l ∧ ("Streamlit" ∉ l)
  ∧ ∃ rest, generate_run_steps l contents owner repo
            = run_step ["export FLASK_APP=app.py"; "flask run"] :: rest.
Proof.
  intros Happ Hno Hlang Hl. apply list_of_set_iff in Hl as [_ Hl].
  assert (Hflask : "Flask" ∈ l).
  { apply Hl, tech_stack_elem. right. exists ["app.py"; "flask"]. split; [by_eval |].
    apply (any_pattern_per_file "Flask"); [by_eval |].
    exists "app.py", "app.py". split; [by_eval |]. split; [done | apply substring_refl]. }
  assert (Hst : "Streamlit" ∉ l).
  { intros H. apply Hl, tech_stack_elem in H as [[H _] | (ps & Ht & Hm)]; [done |].
    apply (any_pattern_per_file "Streamlit") in Hm as (p & f & Hp & Hf & Hs); [| done].
    apply (Hno f Hf). catalog_entry Ht. injection Ht as ->.
    apply elem_of_cons in Hp as [-> | Hp]; [done |].
    apply list_elem_of_singleton in Hp as ->.
    apply (substring_trans _ ".streamlit"); [| done]. by exists ".", "". }
  split; [done |]. split; [done |].
  unfold generate_run_steps, run_commands. cbv zeta. mem_cases. simpl. by eexists.
Qed.

Lemma app_py_runs_as_flask_witness :
  ∃ rest,
    generate_run_steps
      (elements (tech_stack [Item "app.py" "file"; Item "uvicorn.conf" "file"]
                   (RepoInfo (Some "Python"))))
      [Item "app.py" "file"; Item "uvicorn.conf" "file"] "o" "r"
    = run_step ["export FLASK_APP=app.py"; "flask run"] :: rest.
Proof.
  apply (app_py_runs_as_flask "o" "r" (RepoInfo (Some "Python"))
           [Item "app.py" "file"; Item "uvicorn.conf" "file"]).
  - by_eval.
  - intros f Hf. apply not_substring.
    apply elem_of_cons in Hf as [-> | Hf]; [reflexivity |].
    by apply list_elem_of_singleton in Hf as ->.
  - discriminate.
  - unfold detect_technologies, Py.list_of_set. reflexivity.
Defined.

(** X14. Every pattern of the Vue.js and Next.js tags holds "config", so
    a Vue.js or Next.js tag detected from the files (not taken from the
    language) always brings the Environment Configuration step, as the
    last step of the plan. *)
Theorem vue_next_bring_env_step (owner repo : string) (tags : list string)
    (repo_data : repo_info) (contents : list item) (t : string) :
  t = "Vue.js" ∨ t = "Next.js" →
  language repo_data ≠ Some t →
  t ∈ tech_stack contents repo_data →
  has_env_file contents
  ∧ last (generate_setup_steps owner repo tags repo_data contents) = Some env_step.
Proof.
  intros Ht Hlang H.
  apply tech_stack_elem in H as [[H _] | (ps & Hps & Hm)]; [done |].
  apply (any_pattern_per_file t) in Hm as (p & f & Hp & Hf & Hs); [| done].
  assert (Hcfg : substring "config" p).
  { destruct Ht as [-> | ->]; catalog_entry Hps; injection Hps as ->;
      rewrite ?elem_of_cons, elem_of_nil in Hp;
      destruct_or!; subst; try done; by apply contains_spec. }
  apply files_of_elem in Hf as (it & Hin & Hty & <-).
  assert (Henv : has_env_file contents).
  { exists it. split; [done |]. split; [done |]. right.
    apply contains_spec. by apply (substring_trans _ p). }
  split; [exact Henv |].
  destruct (plan_split owner repo tags repo_data contents) as (pre & -> & _).
  apply env_files_nonempty in Henv. rewrite Henv. apply last_snoc.
Qed.

Lemma vue_next_bring_env_step_witness :
  last (generate_setup_steps "o" "r" ["Next.js"] (RepoInfo (Some "JavaScript"))
          [Item "next.config.js" "file"]) = Some env_step.
Proof.
  apply (vue_next_bring_env_step "o" "r" ["Next.js"] (RepoInfo (Some "JavaScript"))
           [Item "next.config.js" "file"] "Next.js").
  - by right.
  - discriminate.
  - apply tech_stack_elem. right. exists ["next.config.js"]. split; [by_eval | reflexivity].
Defined.
